(** * Book management system: client component and REST contract

    A shallow embedding of the React component [App] (the form-and-list
    client) and of the HTTP contract it talks to, followed by the
    properties of the specification that can be settled on it.

    - [JS]     : JavaScript strings as UTF-16 code units, [trim], [||].
    - [Axios]  : request configs, the request interceptor, rejected calls.
    - [App]    : the component state, its handlers as asynchronous
                 programs, and two ways of running them.
    - [Server] : the [/api/books] routes (see the note in that module). *)

From Stdlib Require Import NArith Ascii String.
From stdpp Require Import base option list gmap.

Open Scope N_scope.
Open Scope list_scope.

(** A JavaScript string is a sequence of UTF-16 code units. *)
Abbreviation jsstring := (list N).

Module JS.

(** String literals of the source, written in ASCII. *)
Definition lit (s : string) : jsstring :=
  map N_of_ascii (list_ascii_of_string s).

(** ECMAScript [WhiteSpace] and [LineTerminator] code points, the ones
    [String.prototype.trim] strips.  All of them lie in the BMP, so the
    test is on single code units. *)
Definition isWhiteSpace (c : N) : bool :=
  (c =? 0x0009) || (c =? 0x000B) || (c =? 0x000C) || (c =? 0x0020)
  || (c =? 0x00A0) || (c =? 0x1680)
  || ((0x2000 <=? c) && (c <=? 0x200A))
  || (c =? 0x202F) || (c =? 0x205F) || (c =? 0x3000) || (c =? 0xFEFF).

Definition isLineTerminator (c : N) : bool :=
  (c =? 0x000A) || (c =? 0x000D) || (c =? 0x2028) || (c =? 0x2029).

Definition strippable (c : N) : bool :=
  isWhiteSpace c || isLineTerminator c.

Fixpoint trimStart (s : jsstring) : jsstring :=
  match s with
  | c :: s' => if strippable c then trimStart s' else s
  | [] => []
  end.

Definition trimEnd (s : jsstring) : jsstring :=
  reverse (trimStart (reverse s)).

(** [s.trim()] *)
Definition trim (s : jsstring) : jsstring := trimEnd (trimStart s).

(** [s === ''] *)
Definition isEmpty (s : jsstring) : bool :=
  match s with [] => true | _ :: _ => false end.

(** Truthiness of a value that is a string or absent ([undefined] or
    [null]): the empty string and the absent value are falsy. *)
Definition truthy (v : option jsstring) : bool :=
  match v with
  | Some s => negb (isEmpty s)
  | None => false
  end.

(** [v || fallback], for [v] a string or absent and [fallback] a string. *)
Definition or_else (v : option jsstring) (fallback : jsstring) : jsstring :=
  match v with
  | Some s => if isEmpty s then fallback else s
  | None => fallback
  end.

(** A string that is empty or made of white space only. *)
Definition blank (s : jsstring) : bool := forallb strippable s.

End JS.

Module Axios.

Inductive Method := GET | POST | DELETE.

(** The part of an axios request config this application touches. *)
Record Config := {
  url : jsstring;
  headers : gmap jsstring jsstring;
  data : option (gmap jsstring jsstring)
}.

(** The value a rejected call is caught with.  [response] is absent
    on a transport failure, and the body of an error response
    ([error_data], the response's [data]) need not be an object with a
    [message]. *)
Record ErrorBody := { message : option jsstring }.
Record ErrorResponse := { status : N; error_data : option ErrorBody }.
Record AxiosError := { response : option ErrorResponse }.

(** [err.response?.data?.message] *)
Definition response_message (err : AxiosError) : option jsstring :=
  match response err with
  | Some r =>
      match error_data r with
      | Some d => message d
      | None => None
      end
  | None => None
  end.

(** Outcome of an awaited call; [Fulfilled] carries [response.data]. *)
Inductive Settled (A : Type) :=
| Fulfilled (response_data : A)
| Rejected (err : AxiosError).
Arguments Fulfilled {A} response_data.
Arguments Rejected {A} err.

Section Interceptors.
(** The browser's [localStorage], read when a request is sent. *)
Variable localStorage : gmap jsstring jsstring.

(** [localStorage.getItem(key)]: the stored string, or [null]. *)
Definition getItem (key : jsstring) : option jsstring :=
  localStorage !! key.

(** The fulfilment callback given to [axios.interceptors.request.use];
    the rejection callback hands the error on unchanged. *)
Definition interceptor (config : Config) : Config :=
  let token := getItem (JS.lit "token") in
  if JS.truthy token then
    {| url := url config;
       headers := <[JS.lit "Authorization" :=
                      JS.lit "Bearer " ++ default [] token]> (headers config);
       data := data config |}
  else config.

(** [App] registers the interceptor in its body, so one more copy is
    installed at every render; a request passes through all of them. *)
Definition dispatch (renders : nat) (config : Config) : Config :=
  Nat.iter renders interceptor config.
End Interceptors.

(** The configs [axios.get(url)], [axios.post(url, data)] and
    [axios.delete(url)] start from; [defaults] are the headers axios puts
    on every request. *)
Definition get (u : jsstring) (defaults : gmap jsstring jsstring) : Config :=
  {| url := u; headers := defaults; data := None |}.
Definition post (u : jsstring) (payload defaults : gmap jsstring jsstring) : Config :=
  {| url := u; headers := defaults; data := Some payload |}.
Definition delete (u : jsstring) (defaults : gmap jsstring jsstring) : Config :=
  {| url := u; headers := defaults; data := None |}.

End Axios.

Module App.
Import Axios.

(** The component [App].  Rendering, [console.error], [e.preventDefault()]
    and [axios.defaults.withCredentials] have no part in the state and the
    requests, and are left out. *)

(** A record as the API returns it. *)
Record Book := {
  _id : jsstring;
  title : jsstring;
  author : jsstring;
  description : option jsstring
}.

(** The four [useState] cells of the component. *)
Record State := {
  books : list Book;
  newBook : gmap jsstring jsstring;
  loading : bool;
  error : jsstring
}.

(** [{ title: '', author: '', description: '' }] *)
Definition emptyBook : gmap jsstring jsstring :=
  <[JS.lit "title" := []]>
    (<[JS.lit "author" := []]> (<[JS.lit "description" := []]> ∅)).

Definition initial : State :=
  {| books := []; newBook := emptyBook; loading := false; error := [] |}.

(** What an awaited call of each method resolves to. *)
Definition reply (m : Method) : Type :=
  match m with
  | GET => list Book
  | POST => Book
  | DELETE => unit
  end.

(** The body of an event handler: calls of the state setters, at most
    interrupted by an [await] on an axios call.  [Uncaught] is an
    exception that leaves the handler. *)
Inductive Async : Type :=
| Done
| Uncaught
| setBooks (v : list Book) (k : Async)
| setNewBook (v : gmap jsstring jsstring) (k : Async)
| setLoading (v : bool) (k : Async)
| setError (v : jsstring) (k : Async)
| Await (m : Method) (config : Config) (k : Settled (reply m) → Async).

(** [e.target] of a change event. *)
Record ChangeEvent := { name : jsstring; value : jsstring }.

Section Component.
(** [process.env.REACT_APP_API_BASE_URL], and the headers axios puts
    on a config before the interceptors run. *)
Variable REACT_APP_API_BASE_URL : option jsstring.
Variable defaults : gmap jsstring jsstring.

Definition API_BASE_URL : jsstring :=
  JS.or_else REACT_APP_API_BASE_URL (JS.lit "http://localhost:5000/api").

(** What is left of [fetchBooks] once the awaited call has settled:
    the rest of the [try] block or the [catch] block, and then the
    [finally] block. *)
Definition fetchBooks_settled (response : Settled (reply GET)) : Async :=
  match response with
  | Fulfilled response_data =>
      setBooks response_data (setError [] (setLoading false Done))
  | Rejected err =>
      setError (JS.or_else (response_message err)
                           (JS.lit "Failed to load books"))
        (setLoading false Done)
  end.

(** The effect run on mount. *)
Definition fetchBooks : Async :=
  setLoading true
    (Await GET (Axios.get (API_BASE_URL ++ JS.lit "/books") defaults)
       fetchBooks_settled).

(** The handlers close over the state of the render they were created
    in: [render] is that state. *)
Definition handleInputChange (render : State) (e : ChangeEvent) : Async :=
  setNewBook (<[name e := value e]> (newBook render)) Done.

Definition handleAddBook_settled (render : State)
    (response : Settled (reply POST)) : Async :=
  match response with
  | Fulfilled response_data =>
      setBooks (books render ++ [response_data])
        (setNewBook emptyBook (setError [] (setLoading false Done)))
  | Rejected err =>
      setError (JS.or_else (response_message err)
                           (JS.lit "Failed to add book"))
        (setLoading false Done)
  end.

(** [newBook.title.trim()] throws when the draft has no such field;
    [||] does not look at the author once the title is blank. *)
Definition handleAddBook (render : State) : Async :=
  match newBook render !! JS.lit "title" with
  | None => Uncaught
  | Some t =>
      if JS.isEmpty (JS.trim t) then
        setError (JS.lit "Title and Author are required fields") Done
      else
        match newBook render !! JS.lit "author" with
        | None => Uncaught
        | Some a =>
            if JS.isEmpty (JS.trim a) then
              setError (JS.lit "Title and Author are required fields") Done
            else
              setLoading true
                (Await POST
                   (Axios.post (API_BASE_URL ++ JS.lit "/books")
                               (newBook render) defaults)
                   (handleAddBook_settled render))
        end
  end.

Definition handleDeleteBook_settled (render : State) (id : jsstring)
    (response : Settled (reply DELETE)) : Async :=
  match response with
  | Fulfilled _ =>
      setBooks (filter (λ book, _id book ≠ id) (books render))
        (setError [] (setLoading false Done))
  | Rejected err =>
      setError (JS.or_else (response_message err)
                           (JS.lit "Failed to delete book"))
        (setLoading false Done)
  end.

Definition handleDeleteBook (render : State) (id : jsstring) : Async :=
  setLoading true
    (Await DELETE
       (Axios.delete (API_BASE_URL ++ JS.lit "/books/" ++ id) defaults)
       (handleDeleteBook_settled render id)).
End Component.

(** ** Running a handler *)

Definition with_books (v : list Book) (s : State) : State :=
  {| books := v; newBook := newBook s; loading := loading s; error := error s |}.
Definition with_newBook (v : gmap jsstring jsstring) (s : State) : State :=
  {| books := books s; newBook := v; loading := loading s; error := error s |}.
Definition with_loading (v : bool) (s : State) : State :=
  {| books := books s; newBook := newBook s; loading := v; error := error s |}.
Definition with_error (v : jsstring) (s : State) : State :=
  {| books := books s; newBook := newBook s; loading := loading s; error := v |}.

(** The synchronous part of a program: the setters are applied to the
    current state up to the first [await] (or the end).  What is left
    is [Done], [Uncaught] or an [Await]. *)
Fixpoint sync (p : Async) (s : State) : State * Async :=
  match p with
  | setBooks v k => sync k (with_books v s)
  | setNewBook v k => sync k (with_newBook v s)
  | setLoading v k => sync k (with_loading v s)
  | setError v k => sync k (with_error v s)
  | Done | Uncaught | Await _ _ _ => (s, p)
  end.

(** How a handler ended. *)
Inductive Completion := Returned | Threw.

(** A request as it leaves the client. *)
Definition Request : Type := Method * Config.

Section Run.
(** The world a handler runs in: the token store, the number of
    interceptors installed so far, and the answers of the network. *)
Variable localStorage : gmap jsstring jsstring.
Variable renders : nat.
Variable network : ∀ m : Method, Config → Settled (reply m).

(** A handler run to its end with nothing interleaved: the final
    state, the requests sent, and how it ended. *)
Fixpoint run (p : Async) (s : State) : State * list Request * Completion :=
  match p with
  | Done => (s, [], Returned)
  | Uncaught => (s, [], Threw)
  | setBooks v k => run k (with_books v s)
  | setNewBook v k => run k (with_newBook v s)
  | setLoading v k => run k (with_loading v s)
  | setError v k => run k (with_error v s)
  | Await m config k =>
      let sent := dispatch localStorage renders config in
      let '(s', log, c) := run (k (network m sent)) s in
      (s', (m, sent) :: log, c)
  end.
End Run.

(** The three components of the result of [run]. *)
Definition final (r : State * list Request * Completion) : State := r.1.1.
Definition requests (r : State * list Request * Completion) : list Request := r.1.2.
Definition completion (r : State * list Request * Completion) : Completion := r.2.

(** The draft has the [title] and [author] fields that
    [handleAddBook] reads. *)
Definition has_fields (draft : gmap jsstring jsstring) : Prop :=
  is_Some (draft !! JS.lit "title") ∧ is_Some (draft !! JS.lit "author").

Definition draft_ok (s : State) : Prop := has_fields (newBook s).

(** A program that only ever stores drafts with those fields. *)
Fixpoint keeps_draft (p : Async) : Prop :=
  match p with
  | Done | Uncaught => True
  | setNewBook v k => has_fields v ∧ keeps_draft k
  | setBooks _ k | setLoading _ k | setError _ k => keeps_draft k
  | Await m _ k => ∀ response : Settled (reply m), keeps_draft (k response)
  end.


(** ** The component over time

    Handlers do not run to their end in one go: one that awaits a call
    is suspended, and other handlers, or the rest of other suspended ones,
    may run before it goes on.  Nothing in the component prevents that;
    only the disabled controls do. *)

(** The rest of a handler that awaits a call. *)
Record Suspended := {
  awaited : Method;
  resume : Settled (reply awaited) → Async
}.

Record Browser := { state : State; inflight : list Suspended }.

(** The outcome of [sync]: the new state, and one more suspended
    handler when the program stopped at an [await]. *)
Definition park (r : State * Async) (waiting : list Suspended) : Browser :=
  {| state := r.1;
     inflight := match r.2 with
                 | Await m _ k => {| awaited := m; resume := k |} :: waiting
                 | _ => waiting
                 end |}.

(** What the user can do: type in a field, submit the form, press a
    delete button. *)
Inductive Action :=
| Change (e : ChangeEvent)
| Submit
| Remove (id : jsstring).

Section Browser.
Variable REACT_APP_API_BASE_URL : option jsstring.
Variable defaults : gmap jsstring jsstring.

(** The handler of the current render for each action. *)
Definition handler (render : State) (a : Action) : Async :=
  match a with
  | Change e => handleInputChange render e
  | Submit => handleAddBook REACT_APP_API_BASE_URL defaults render
  | Remove id => handleDeleteBook REACT_APP_API_BASE_URL defaults render id
  end.

(** After the first render the mount effect has started [fetchBooks]. *)
Definition mounted : Browser :=
  park (sync (fetchBooks REACT_APP_API_BASE_URL defaults) initial) [].

Inductive step : Browser → Browser → Prop :=
| step_action (b : Browser) (a : Action) :
    step b (park (sync (handler (state b) a) (state b)) (inflight b))
| step_settled (b : Browser) (before after : list Suspended) (p : Suspended)
      (response : Settled (reply (awaited p))) :
    inflight b = before ++ p :: after →
    step b (park (sync (resume p response) (state b)) (before ++ after)).

Definition reachable (b : Browser) : Prop := rtc step mounted b.
End Browser.

(** ** What the component renders *)

(** The functions of the component that the elements are given as event
    handlers: [{handleInputChange}], [{handleAddBook}] and
    [{() => handleDeleteBook(book._id)}]. *)
Inductive Listener :=
| HandleInputChange
| HandleAddBook
| HandleDeleteBook (id : jsstring).

(** The value of a prop: a string, [undefined], a boolean, or a handler. *)
Inductive Attr :=
| Str (v : jsstring)
| Undefined
| Flag (b : bool)
| Listen (l : Listener).

(** A React element, or one of the other children JSX can hold: a string,
    a number, or [undefined]. *)
#[local] Set Warnings "-register-all".
Inductive Node :=
| Element (tag : string) (props : list (string * Attr)) (children : list Node)
| Text (v : jsstring)
| Number (n : nat)
| Nothing.

Definition attr (name : string) (v : Attr) : string * Attr := (name, v).

Definition className (v : string) : string * Attr := attr "className" (Str (JS.lit v)).

(** The value of a prop that is read off an object: [undefined] for a
    field the object does not have. *)
Definition field (v : option jsstring) : Attr :=
  match v with
  | Some x => Str x
  | None => Undefined
  end.

(** [{v && element}] for a [v] that is a string or [undefined]: the
    falsy [v] itself when it is one, the element otherwise. *)
Definition and_then (v : option jsstring) (element : jsstring → Node) : Node :=
  match v with
  | Some x => if JS.isEmpty x then Text x else element x
  | None => Nothing
  end.

(** One card of the list, the body of [books.map]. *)
Definition bookCard (loading : bool) (book : Book) : Node :=
  Element "div" [attr "key" (Str (_id book)); className "book-card"]
    [ Element "h3" [] [Text (title book)];
      Element "p" [className "author"] [Text (JS.lit "By: "); Text (author book)];
      and_then (description book)
        (λ d, Element "p" [className "description"] [Text d]);
      Element "button"
        [ attr "onClick" (Listen (HandleDeleteBook (_id book)));
          className "delete-button";
          attr "disabled" (Flag loading) ]
        [Text (if loading then JS.lit "Deleting..." else JS.lit "Delete")] ].

(** The element [App] returns. *)
Definition render (s : State) : Node :=
  Element "div" [className "app"]
    [ Element "h1" [] [Text (JS.lit "Book Management System")];
      Element "div" [className "book-form"]
        [ Element "h2" [] [Text (JS.lit "Add New Book")];
          and_then (Some (error s))
            (λ e, Element "div" [className "error-message"] [Text e]);
          Element "form" [attr "onSubmit" (Listen HandleAddBook)]
            [ Element "div" [className "form-group"]
                [ Element "label" [] [Text (JS.lit "Title:")];
                  Element "input"
                    [ attr "type" (Str (JS.lit "text"));
                      attr "name" (Str (JS.lit "title"));
                      attr "value" (field (newBook s !! JS.lit "title"));
                      attr "onChange" (Listen HandleInputChange);
                      attr "required" (Flag true);
                      attr "placeholder" (Str (JS.lit "Enter book title"));
                      attr "disabled" (Flag (loading s)) ] [] ];
              Element "div" [className "form-group"]
                [ Element "label" [] [Text (JS.lit "Author:")];
                  Element "input"
                    [ attr "type" (Str (JS.lit "text"));
                      attr "name" (Str (JS.lit "author"));
                      attr "value" (field (newBook s !! JS.lit "author"));
                      attr "onChange" (Listen HandleInputChange);
                      attr "required" (Flag true);
                      attr "placeholder" (Str (JS.lit "Enter author name"));
                      attr "disabled" (Flag (loading s)) ] [] ];
              Element "div" [className "form-group"]
                [ Element "label" [] [Text (JS.lit "Description:")];
                  Element "textarea"
                    [ attr "name" (Str (JS.lit "description"));
                      attr "value" (field (newBook s !! JS.lit "description"));
                      attr "onChange" (Listen HandleInputChange);
                      attr "placeholder"
                        (Str (JS.lit "Enter book description (optional)"));
                      attr "disabled" (Flag (loading s)) ] [] ];
              Element "button"
                [ attr "type" (Str (JS.lit "submit"));
                  className "add-button";
                  attr "disabled" (Flag (loading s)) ]
                [Text (if loading s then JS.lit "Adding..." else JS.lit "Add Book")] ] ];
      Element "div" [className "book-list"]
        [ Element "h2" []
            [Text (JS.lit "Your Books ("); Number (length (books s)); Text (JS.lit ")")];
          if loading s && (length (books s) =? 0)%nat then
            Element "p" [] [Text (JS.lit "Loading books...")]
          else if (length (books s) =? 0)%nat then
            Element "p" [className "no-books"]
              [Text (JS.lit "No books added yet. Add your first book above!")]
          else
            Element "div" [className "books-container"]
              (map (bookCard (loading s)) (books s)) ] ].

(** ** What the user can do with what is rendered

    The browser delivers no event to a disabled control, and submits a
    form through a submit button of the form that is not disabled. *)

Fixpoint prop (name : string) (props : list (string * Attr)) : option Attr :=
  match props with
  | (n, v) :: rest => if String.eqb n name then Some v else prop name rest
  | [] => None
  end.

Definition is_control (tag : string) : bool :=
  String.eqb tag "input" || String.eqb tag "textarea" || String.eqb tag "button".

Definition is_disabled (props : list (string * Attr)) : bool :=
  match prop "disabled" props with
  | Some (Flag b) => b
  | _ => false
  end.

(** The props of the controls of a tree, in document order. *)
Fixpoint controls (n : Node) : list (list (string * Attr)) :=
  match n with
  | Element tag props children =>
      (if is_control tag then [props] else []) ++ flat_map controls children
  | _ => []
  end.

Definition is_submit (props : list (string * Attr)) : bool :=
  match prop "type" props with
  | Some (Str v) => bool_decide (v = JS.lit "submit")
  | _ => false
  end.

(** An event and the handler it reaches. *)
Inductive Trigger :=
| Typing (name : jsstring)
| Submitting
| Pressing (id : jsstring).

(** The events an element takes itself: a control that is not disabled
    takes changes and clicks, a form is submitted when it has a submit
    button that is not disabled.  The check of [required] fields that
    precedes a submit is not made here but in [validates]: for a form
    this is what could be submitted, not what is let through. *)
Definition own_triggers (n : Node) : list Trigger :=
  match n with
  | Element tag props children =>
      (if is_control tag && negb (is_disabled props) then
         match prop "onChange" props, prop "name" props with
         | Some (Listen HandleInputChange), Some (Str name) => [Typing name]
         | _, _ => []
         end ++
         match prop "onClick" props with
         | Some (Listen (HandleDeleteBook id)) => [Pressing id]
         | _ => []
         end
       else []) ++
      (if String.eqb tag "form" then
         match prop "onSubmit" props with
         | Some (Listen HandleAddBook) =>
             if existsb (λ c, is_submit c && negb (is_disabled c)) (controls n)
             then [Submitting] else []
         | _ => []
         end
       else [])
  | _ => []
  end.

Fixpoint triggers (n : Node) : list Trigger :=
  own_triggers n ++
  match n with
  | Element _ _ children => flat_map triggers children
  | _ => []
  end.

(** An action the rendered tree offers.  The [name] of a change event is
    the [name] of the control it comes from; its [value] is what the user
    typed.  This looks at the handlers and at [disabled] only: the
    [required] attribute is not taken into account, so for [Submit] it is
    an upper bound of what the browser lets through; [permits] below is
    the exact version. *)
Definition offers (view : Node) (a : Action) : Prop :=
  match a with
  | Change e => Typing (name e) ∈ triggers view
  | Submit => Submitting ∈ triggers view
  | Remove id => Pressing id ∈ triggers view
  end.

(** The browser checks a form before it fires [submit]: a control with the
    [required] attribute that is not disabled must have a value that is not
    the empty string (white space counts as a value).  The value of a
    controlled input is its [value] prop; an input given no value starts
    out empty. *)
Definition is_required (props : list (string * Attr)) : bool :=
  match prop "required" props with
  | Some (Flag b) => b
  | _ => false
  end.

Definition value_missing (props : list (string * Attr)) : bool :=
  is_required props &&
  match prop "value" props with
  | Some (Str v) => JS.isEmpty v
  | _ => true
  end.

Definition validates (form : Node) : bool :=
  forallb (λ c, is_disabled c || negb (value_missing c)) (controls form).

(** The [form] elements of a tree, in document order. *)
Fixpoint forms (n : Node) : list Node :=
  match n with
  | Element tag props children =>
      (if String.eqb tag "form" then [n] else []) ++ flat_map forms children
  | _ => []
  end.

(** An action the browser lets the user perform on the rendered tree:
    what the tree offers, and for a submit a form that passes the check of
    its required fields. *)
Definition permits (view : Node) (a : Action) : Prop :=
  match a with
  | Change _ | Remove _ => offers view a
  | Submit =>
      Exists (λ form, Submitting ∈ own_triggers form ∧ validates form = true)
        (forms view)
  end.

Section UI.
Variable REACT_APP_API_BASE_URL : option jsstring.
Variable defaults : gmap jsstring jsstring.
(** The records the server may return. *)
Variable served : Book → Prop.

Definition delivers (m : Method) : Settled (reply m) → Prop :=
  match m with
  | GET => λ response,
      match response with
      | Fulfilled response_data => Forall served response_data
      | Rejected _ => True
      end
  | POST => λ response,
      match response with
      | Fulfilled response_data => served response_data
      | Rejected _ => True
      end
  | DELETE => λ _, True
  end.

(** The component driven through what it renders. *)
Inductive ui_step : Browser → Browser → Prop :=
| ui_action (b : Browser) (a : Action) :
    offers (render (state b)) a →
    ui_step b
      (park (sync (handler REACT_APP_API_BASE_URL defaults (state b) a) (state b))
         (inflight b))
| ui_settled (b : Browser) (before after : list Suspended) (p : Suspended)
      (response : Settled (reply (awaited p))) :
    inflight b = before ++ p :: after →
    delivers (awaited p) response →
    ui_step b (park (sync (resume p response) (state b)) (before ++ after)).

Definition ui_reachable (b : Browser) : Prop :=
  rtc ui_step (mounted REACT_APP_API_BASE_URL defaults) b.

(** The fields of the draft the form has a control for. *)
Definition form_fields : gset jsstring :=
  {[ JS.lit "title"; JS.lit "author"; JS.lit "description" ]}.

(** [p] is the rest of one of the three operations, called in a render
    that showed the books [shown]. *)
Definition rest_of (shown : list Book) (p : Suspended) : Prop :=
  p = {| awaited := GET; resume := fetchBooks_settled |}
  ∨ (∃ render, books render = shown ∧
       p = {| awaited := POST; resume := handleAddBook_settled render |})
  ∨ (∃ render id, books render = shown ∧
       p = {| awaited := DELETE; resume := handleDeleteBook_settled render id |}).

(** What holds of the component as long as it is driven through what it
    renders: the books come from the server, the draft has the fields of
    the form, and either nothing is awaited and [loading] is off, or one
    call is awaited, [loading] is on and the handler awaiting it saw the
    books there are now. *)
Definition ui_invariant (b : Browser) : Prop :=
  Forall served (books (state b)) ∧
  dom (newBook (state b)) = form_fields ∧
  ((loading (state b) = false ∧ inflight b = [])
   ∨ (loading (state b) = true ∧
      ∃ p, inflight b = [p] ∧ rest_of (books (state b)) p)).
End UI.

(** The elements of a tree that have a given [className], in document
    order. *)
Fixpoint by_class (c : jsstring) (n : Node) : list Node :=
  match n with
  | Element tag props children =>
      (match prop "className" props with
       | Some (Str v) => if bool_decide (v = c) then [n] else []
       | _ => []
       end) ++ flat_map (by_class c) children
  | _ => []
  end.

End App.

Module Server.
Import App.

(** The route handlers mounted at [/api/books] live in [routes/books],
    which is not among the sources at hand; [server.js] only mounts them.
    The definitions of this module follow the specification instead. *)

(** Modelled from the spec: the JSON bodies of the absent routes, an
    array of records, one record, the error shape "{message: string}",
    or no body at all. *)
Inductive Payload :=
| Records (l : list Book)
| Created (b : Book)
| Message (message : jsstring)
| NoBody.

(** Modelled from the spec: an HTTP response of the absent routes, its
    status code and JSON body. *)
Record Response := { status : N; payload : Payload }.

(** Modelled from the spec: the two places where the specification lets an implementation
    choose: "201 (or 200)" on creation, and "200/204" with "no body or
    deleted record" on deletion. *)
Inductive CreateStyle := Status201 | Status200.
(** Modelled from the spec: see [CreateStyle]. *)
Inductive DeleteStyle := NoContent204 | DeletedRecord200.

(** Modelled from the spec: "201 (or 200)". *)
Definition created_status (c : CreateStyle) : N :=
  match c with Status201 => 201 | Status200 => 200 end.

(** Modelled from the spec: "200/204 on success", "confirmation (no
    body or deleted record)". *)
Definition deleted_response (d : DeleteStyle) (b : Book) : Response :=
  match d with
  | NoContent204 => {| status := 204; payload := NoBody |}
  | DeletedRecord200 => {| status := 200; payload := Created b |}
  end.

Section Routes.
Variable create_style : CreateStyle.
Variable delete_style : DeleteStyle.
(** The identifier the store gives to a new record; opaque. *)
Variable assign_id : list Book → jsstring.

(** Modelled from the spec: the list route of the absent
    [routes/books], "GET /api/books → 200, JSON array" of all records
    in the store's order. *)
Definition list_books (store : list Book) : Response * list Book :=
  ({| status := 200; payload := Records store |}, store).

(** Modelled from the spec: a required field of a create request that
    is "missing" or "empty or whitespace-only". *)
Definition absent_or_blank (body : gmap jsstring jsstring) (field : jsstring) : Prop :=
  match body !! field with
  | Some v => JS.trim v = []
  | None => True
  end.

(** Modelled from the spec: the test the create route makes of a
    required field, the negation of [absent_or_blank]. *)
Definition required (body : gmap jsstring jsstring) (field : jsstring) : bool :=
  match body !! field with
  | Some v => negb (JS.isEmpty (JS.trim v))
  | None => false
  end.

(** Modelled from the spec: the create route of the absent
    [routes/books].  "An implementation MUST reject create-requests
    missing [title] or [author] with a 4xx response and a
    machine-readable message", "400 on missing required fields";
    otherwise the record is inserted with a store-assigned id and
    returned. *)
Definition create_book (body : gmap jsstring jsstring) (store : list Book)
  : Response * list Book :=
  if required body (JS.lit "title") && required body (JS.lit "author") then
    let book := {| _id := assign_id store;
                   title := default [] (body !! JS.lit "title");
                   author := default [] (body !! JS.lit "author");
                   description := body !! JS.lit "description" |} in
    ({| status := created_status create_style; payload := Created book |},
     store ++ [book])
  else
    ({| status := 400;
        payload := Message (JS.lit "Title and author are required") |},
     store).

(** Modelled from the spec: the delete route of the absent
    [routes/books].  "200/204 on success; 404 if [id] does not exist";
    "deleting a nonexistent [id] must not alter the existing record
    set and must report a not-found condition". *)
Definition delete_book (id : jsstring) (store : list Book)
  : Response * list Book :=
  match find (λ b, bool_decide (_id b = id)) store with
  | Some b =>
      (deleted_response delete_style b,
       filter (λ b, _id b ≠ id) store)
  | None =>
      ({| status := 404; payload := Message (JS.lit "Book not found") |},
       store)
  end.
End Routes.

End Server.

(** * Sample inputs

    Concrete states, stores and networks on which the definitions above
    are run. *)

Import Axios App.

(** A network that creates the book it is asked to and fulfils the rest;
    used to run the handlers on concrete inputs. *)
Definition dune : Book :=
  {| _id := JS.lit "65f0c1"; title := JS.lit " Dune ";
     author := JS.lit "Herbert"; description := Some [] |}.

Definition obliging : ∀ m : Method, Config → Settled (reply m) :=
  λ m _,
    match m return Settled (reply m) with
    | GET => Fulfilled []
    | POST => Fulfilled dune
    | DELETE => Fulfilled tt
    end.

(** A draft with white space around the title, and one with no author. *)
Definition dune_draft : State :=
  with_newBook
    (<[JS.lit "title" := JS.lit " Dune "]>
       (<[JS.lit "author" := JS.lit "Herbert"]> emptyBook))
    initial.

Definition anonymous_draft : State :=
  with_newBook
    (<[JS.lit "title" := JS.lit "Dune"]>
       (<[JS.lit "author" := JS.lit "   "]> emptyBook))
    initial.


Definition not_found : AxiosError :=
  {| response := Some {| Axios.status := 404;
                         error_data := Some {| message := Some (JS.lit "Book not found") |} |} |}.


(** A store of two records, for running the routes on concrete inputs. *)
Definition emma : Book :=
  {| _id := JS.lit "65f0c2"; title := JS.lit "Emma";
     author := JS.lit "Austen"; description := None |}.

Definition shelf : list Book := [dune; emma].

Definition untitled : gmap jsstring jsstring :=
  <[JS.lit "title" := JS.lit "  "]> (<[JS.lit "author" := JS.lit "X"]> ∅).

(** The draft of [dune_draft] in a list that already shows [emma]. *)
Definition emma_listed : State := with_books [emma] dune_draft.

(** The component once the list it asked for on mount has arrived with
    [emma] in it, and a server that has no other record to return. *)
Definition only_emma : Book → Prop := λ book, book = emma.

Definition listed : Browser :=
  park (sync (fetchBooks_settled (Fulfilled [emma])) (state (mounted None ∅))) [].

(** A network on which creating fails and the rest is fulfilled. *)
Definition refusing : ∀ m : Method, Config → Settled (reply m) :=
  λ m _,
    match m return Settled (reply m) with
    | GET => Fulfilled []
    | POST => Rejected not_found
    | DELETE => Fulfilled tt
    end.

(** * Properties *)

(** ** JavaScript strings *)

Section JSFacts.
Import JS.

Lemma isEmpty_nil (s : jsstring) : isEmpty s = true ↔ s = [].
Proof. destruct s; simpl; split; congruence. Qed.

Lemma isEmpty_reverse (s : jsstring) : isEmpty (reverse s) = isEmpty s.
Proof.
  destruct s as [|c s]; [reflexivity|].
  rewrite reverse_cons. destruct (reverse s); reflexivity.
Qed.

Lemma blank_app (s1 s2 : jsstring) : blank (s1 ++ s2) = blank s1 && blank s2.
Proof. apply forallb_app. Qed.

Lemma blank_reverse (s : jsstring) : blank (reverse s) = blank s.
Proof.
  induction s as [|c s IH]; [reflexivity|].
  rewrite reverse_cons, blank_app, IH. simpl.
  rewrite andb_true_r. apply andb_comm.
Qed.

Lemma blank_trimStart (s : jsstring) : blank (trimStart s) = blank s.
Proof.
  induction s as [|c s IH]; [reflexivity|]. simpl.
  destruct (strippable c) eqn:Hc; simpl; [exact IH|]. now rewrite Hc.
Qed.

Lemma isEmpty_trimStart (s : jsstring) : isEmpty (trimStart s) = blank s.
Proof.
  induction s as [|c s IH]; [reflexivity|]. simpl.
  destruct (strippable c); simpl; [exact IH | reflexivity].
Qed.

(** [s.trim() === ''] holds exactly of the strings that are empty or
    consist of white space and line terminators. *)
Lemma trim_empty (s : jsstring) : isEmpty (trim s) = blank s.
Proof.
  unfold trim, trimEnd.
  now rewrite isEmpty_reverse, isEmpty_trimStart, blank_reverse, blank_trimStart.
Qed.

Lemma trim_nil (s : jsstring) : trim s = [] ↔ blank s = true.
Proof. rewrite <- trim_empty. symmetry. apply isEmpty_nil. Qed.

Lemma or_else_truthy (v : option jsstring) (fallback : jsstring) :
  fallback ≠ [] → or_else v fallback ≠ [].
Proof.
  intros Hf. destruct v as [[|c s]|]; simpl; congruence.
Qed.

End JSFacts.

(** ** The request interceptor *)

Section InterceptorFacts.
Import Axios.
Variable localStorage : gmap jsstring jsstring.

Lemma interceptor_url config :
  url (interceptor localStorage config) = url config.
Proof. unfold interceptor. destruct (JS.truthy _); reflexivity. Qed.

Lemma interceptor_data config :
  data (interceptor localStorage config) = data config.
Proof. unfold interceptor. destruct (JS.truthy _); reflexivity. Qed.

Lemma interceptor_headers config :
  headers (interceptor localStorage config) =
    match getItem localStorage (JS.lit "token") with
    | Some (c :: t) =>
        <[JS.lit "Authorization" := JS.lit "Bearer " ++ c :: t]> (headers config)
    | Some [] | None => headers config
    end.
Proof.
  unfold interceptor.
  destruct (getItem localStorage (JS.lit "token")) as [[|c t]|]; reflexivity.
Qed.

(** Installing the interceptor more than once changes nothing. *)
Lemma interceptor_idempotent config :
  interceptor localStorage (interceptor localStorage config) =
  interceptor localStorage config.
Proof.
  unfold interceptor.
  destruct (JS.truthy (getItem localStorage (JS.lit "token"))) eqn:Ht;
    simpl; rewrite ?Ht; [|reflexivity].
  simpl. now rewrite insert_insert_eq.
Qed.

Lemma dispatch_once renders config :
  dispatch localStorage (S renders) config = interceptor localStorage config.
Proof.
  unfold dispatch. induction renders as [|n IH]; [reflexivity|].
  change (Nat.iter (S (S n)) (interceptor localStorage) config)
    with (interceptor localStorage
            (Nat.iter (S n) (interceptor localStorage) config)).
  rewrite IH. apply interceptor_idempotent.
Qed.

Lemma dispatch_url renders config :
  url (dispatch localStorage renders config) = url config.
Proof.
  destruct renders; [reflexivity|]. rewrite dispatch_once. apply interceptor_url.
Qed.

Lemma dispatch_data renders config :
  data (dispatch localStorage renders config) = data config.
Proof.
  destruct renders; [reflexivity|]. rewrite dispatch_once. apply interceptor_data.
Qed.
End InterceptorFacts.

(** ** Running the handlers *)

Section AppFacts.
Import Axios App.
Variable REACT_APP_API_BASE_URL : option jsstring.
Variable defaults : gmap jsstring jsstring.
Variable localStorage : gmap jsstring jsstring.
Variable renders : nat.
Variable network : ∀ m : Method, Config → Settled (reply m).

Local Abbreviation run := (App.run localStorage renders network).
Local Abbreviation API := (API_BASE_URL REACT_APP_API_BASE_URL).
Local Abbreviation sent c := (dispatch localStorage renders c).

Lemma run_fetchBooks s :
  run (fetchBooks REACT_APP_API_BASE_URL defaults) s =
    let c := sent (Axios.get (API ++ JS.lit "/books") defaults) in
    (match network GET c with
     | Fulfilled response_data =>
         with_loading false (with_error [] (with_books response_data
           (with_loading true s)))
     | Rejected err =>
         with_loading false
           (with_error (JS.or_else (response_message err)
                                   (JS.lit "Failed to load books"))
              (with_loading true s))
     end, [(GET, c)], Returned).
Proof.
  simpl. destruct (network GET _); reflexivity.
Qed.

Lemma handleAddBook_blank s t a :
  newBook s !! JS.lit "title" = Some t →
  newBook s !! JS.lit "author" = Some a →
  JS.trim t = [] ∨ JS.trim a = [] →
  handleAddBook REACT_APP_API_BASE_URL defaults s =
    setError (JS.lit "Title and Author are required fields") Done.
Proof.
  intros Ht Ha Hblank. unfold handleAddBook. rewrite Ht, Ha.
  destruct (JS.isEmpty (JS.trim t)) eqn:Et; [reflexivity|].
  destruct Hblank as [H|H]; rewrite H in *; [discriminate|reflexivity].
Qed.

Lemma handleAddBook_filled s t a :
  newBook s !! JS.lit "title" = Some t →
  newBook s !! JS.lit "author" = Some a →
  JS.trim t ≠ [] → JS.trim a ≠ [] →
  handleAddBook REACT_APP_API_BASE_URL defaults s =
    setLoading true
      (Await POST (Axios.post (API ++ JS.lit "/books") (newBook s) defaults)
         (handleAddBook_settled s)).
Proof.
  intros Ht Ha Nt Na. unfold handleAddBook. rewrite Ht, Ha.
  destruct (JS.trim t); [congruence|]. destruct (JS.trim a); [congruence|].
  reflexivity.
Qed.

Lemma run_submit s :
  run (setLoading true
         (Await POST (Axios.post (API ++ JS.lit "/books") (newBook s) defaults)
            (handleAddBook_settled s))) s =
    let c := sent (Axios.post (API ++ JS.lit "/books") (newBook s) defaults) in
    (match network POST c with
     | Fulfilled response_data =>
         with_loading false (with_error [] (with_newBook emptyBook
           (with_books (books s ++ [response_data]) (with_loading true s))))
     | Rejected err =>
         with_loading false
           (with_error (JS.or_else (response_message err)
                                   (JS.lit "Failed to add book"))
              (with_loading true s))
     end, [(POST, c)], Returned).
Proof.
  simpl. destruct (network POST _); reflexivity.
Qed.

Lemma run_handleDeleteBook s id :
  run (handleDeleteBook REACT_APP_API_BASE_URL defaults s id) s =
    let c := sent (Axios.delete (API ++ JS.lit "/books/" ++ id) defaults) in
    (match network DELETE c with
     | Fulfilled _ =>
         with_loading false (with_error []
           (with_books (filter (λ book, _id book ≠ id) (books s))
              (with_loading true s)))
     | Rejected err =>
         with_loading false
           (with_error (JS.or_else (response_message err)
                                   (JS.lit "Failed to delete book"))
              (with_loading true s))
     end, [(DELETE, c)], Returned).
Proof.
  simpl. destruct (network DELETE _); reflexivity.
Qed.

(** Every request a handler sends has gone through the interceptors. *)
Lemma run_requests_dispatched p s :
  Forall (λ r : Request, ∃ config, r.2 = sent config) (requests (run p s)).
Proof.
  revert s. induction p as [| |v k IH|v k IH|v k IH|v k IH|m config k IH];
    intros s; simpl; try apply IH; try constructor.
  specialize (IH (network m (sent config)) s).
  destruct (App.run _ _ _ (k _) s) as [[s' log] c]. unfold requests in *.
  simpl in *. constructor; [eexists; reflexivity | exact IH].
Qed.

(** The draft keeps its [title] and [author] fields, so [handleAddBook]
    never throws in a state the component can reach. *)
Lemma draft_ok_initial : draft_ok initial.
Proof. split; eexists; reflexivity. Qed.

(** The draft a successful create leaves: the three fields of the form,
    each the empty string, and nothing else. *)
Lemma emptyBook_lookup (field : jsstring) :
  emptyBook !! field =
    if decide (field = JS.lit "title" ∨ field = JS.lit "author"
               ∨ field = JS.lit "description")
    then Some [] else None.
Proof.
  unfold emptyBook. rewrite !lookup_insert, lookup_empty.
  repeat case_decide; try reflexivity; exfalso; intuition congruence.
Qed.

Lemma has_fields_emptyBook : has_fields emptyBook.
Proof. split; eexists; reflexivity. Qed.

Lemma has_fields_insert draft k v : has_fields draft → has_fields (<[k := v]> draft).
Proof.
  intros [Ht Ha]. split; rewrite lookup_insert; case_decide; eauto.
Qed.

Lemma keeps_draft_sync p s :
  keeps_draft p → draft_ok s →
  draft_ok (sync p s).1 ∧ keeps_draft (sync p s).2.
Proof.
  revert s. induction p as [| |v k IH|v k IH|v k IH|v k IH|m config k IH];
    intros s Hp Hs; simpl in *; auto.
  destruct Hp as [Hv Hk]. apply IH; assumption.
Qed.

Lemma keeps_draft_handler s a :
  draft_ok s → keeps_draft (handler REACT_APP_API_BASE_URL defaults s a).
Proof.
  intros Hs. destruct a as [e| |id]; simpl.
  - split; [apply has_fields_insert, Hs | exact I].
  - unfold handleAddBook.
    destruct (newBook s !! JS.lit "title") as [t|]; [|exact I].
    destruct (JS.isEmpty (JS.trim t)); [exact I|].
    destruct (newBook s !! JS.lit "author") as [a|]; [|exact I].
    destruct (JS.isEmpty (JS.trim a)); [exact I|].
    intros [b|err]; simpl; auto using has_fields_emptyBook.
  - intros [u|err]; exact I.
Qed.

Lemma keeps_draft_park r waiting :
  draft_ok r.1 → keeps_draft r.2 →
  Forall (λ p, ∀ response, keeps_draft (resume p response)) waiting →
  draft_ok (state (park r waiting)) ∧
  Forall (λ p, ∀ response, keeps_draft (resume p response))
    (inflight (park r waiting)).
Proof.
  destruct r as [s p]. simpl. intros Hs Hp Hw. split; [exact Hs|].
  unfold park. simpl. destruct p; try exact Hw.
  constructor; [exact Hp | exact Hw].
Qed.

(** In every state the component reaches, however the handlers
    interleave, the draft has its [title] and [author]. *)
Lemma reachable_draft_ok b :
  reachable REACT_APP_API_BASE_URL defaults b → draft_ok (state b).
Proof.
  intros Hb.
  enough (draft_ok (state b) ∧
          Forall (λ p, ∀ response, keeps_draft (resume p response)) (inflight b))
    by tauto.
  revert b Hb. apply rtc_ind_r; [|intros b b' _ Hstep IH].
  - apply keeps_draft_park; [| |constructor].
    + apply keeps_draft_sync; [|apply draft_ok_initial].
      intros [l|err]; exact I.
    + apply keeps_draft_sync; [|apply draft_ok_initial].
      intros [l|err]; exact I.
  - destruct IH as [Hs Hw]. inversion Hstep as [b0 a|b0 before after p response Hin]; subst.
    + pose proof (keeps_draft_sync _ _ (keeps_draft_handler (state b) a Hs) Hs) as [? ?].
      apply keeps_draft_park; assumption.
    + rewrite Hin in Hw. apply Forall_app in Hw as [Hb1 Hb2].
      apply Forall_cons in Hb2 as [Hp Hb2].
      pose proof (keeps_draft_sync _ _ (Hp response) Hs) as [? ?].
      apply keeps_draft_park; [assumption..|].
      apply Forall_app; split; assumption.
Qed.

(** What a suspended [handleAddBook] appends to, and what a suspended
    [handleDeleteBook] filters, are the books of the render it was called
    in, whatever [books] holds by the time the call settles. *)
Lemma handleAddBook_settled_render render record s1 :
  sync (handleAddBook_settled render (Fulfilled record)) s1 =
    ({| books := books render ++ [record]; newBook := emptyBook;
        loading := false; error := [] |}, Done).
Proof. reflexivity. Qed.

Lemma handleDeleteBook_settled_render render id u s1 :
  sync (handleDeleteBook_settled render id (Fulfilled u)) s1 =
    ({| books := filter (λ book, _id book ≠ id) (books render);
        newBook := newBook s1; loading := false; error := [] |}, Done).
Proof. reflexivity. Qed.

Lemma handleAddBook_no_throw s :
  draft_ok s →
  completion (run (handleAddBook REACT_APP_API_BASE_URL defaults s) s) = Returned.
Proof.
  intros [[t Ht] [a Ha]]. unfold handleAddBook. rewrite Ht, Ha.
  destruct (JS.isEmpty (JS.trim t)); [reflexivity|].
  destruct (JS.isEmpty (JS.trim a)); [reflexivity|].
  simpl. destruct (network POST _); reflexivity.
Qed.
End AppFacts.

(** ** The client *)

(** C6. Updating the draft from a change event sets the field the event
    names to the event's value and nothing else: the other fields of the
    draft, [books], [loading] and [error] keep their values and no request
    is sent.  This holds for every field name, in particular for [title],
    [author] and [description]. *)
Theorem handleInputChange_frame
    (localStorage : gmap jsstring jsstring) (renders : nat)
    (network : ∀ m : Method, Config → Settled (reply m))
    (s : State) (e : ChangeEvent) :
  let r := run localStorage renders network (handleInputChange s e) s in
  (∀ field : jsstring,
     newBook (final r) !! field =
       if decide (field = name e) then Some (value e) else newBook s !! field) ∧
  books (final r) = books s ∧
  loading (final r) = loading s ∧
  error (final r) = error s ∧
  requests r = [] ∧
  completion r = Returned.
Proof.
  simpl. unfold final, requests, completion. simpl.
  repeat split. intros field. rewrite lookup_insert.
  destruct (decide (name e = field)), (decide (field = name e)); congruence.
Qed.

(** C2. When the title or the author of the draft is empty after trimming,
    submitting sets [error], sends nothing and leaves [books], the draft
    and [loading] as they were. *)
Theorem handleAddBook_blank_rejected
    (env : option jsstring) (defaults localStorage : gmap jsstring jsstring)
    (renders : nat) (network : ∀ m : Method, Config → Settled (reply m))
    (s : State) (t a : jsstring) :
  newBook s !! JS.lit "title" = Some t →
  newBook s !! JS.lit "author" = Some a →
  JS.trim t = [] ∨ JS.trim a = [] →
  let r := run localStorage renders network (handleAddBook env defaults s) s in
  error (final r) = JS.lit "Title and Author are required fields" ∧
  error (final r) ≠ [] ∧
  requests r = [] ∧
  books (final r) = books s ∧
  newBook (final r) = newBook s ∧
  loading (final r) = loading s.
Proof.
  intros Ht Ha Hblank r. subst r.
  rewrite (handleAddBook_blank env defaults s t a Ht Ha Hblank).
  unfold final, requests. simpl. repeat split. discriminate.
Qed.

Lemma handleAddBook_blank_rejected_witness :
  let r := run ∅ 1 obliging (handleAddBook None ∅ anonymous_draft) anonymous_draft in
  error (final r) = JS.lit "Title and Author are required fields" ∧
  error (final r) ≠ [] ∧
  requests r = [] ∧
  books (final r) = books anonymous_draft ∧
  newBook (final r) = newBook anonymous_draft ∧
  loading (final r) = loading anonymous_draft.
Proof.
  apply (handleAddBook_blank_rejected None ∅ ∅ 1 obliging anonymous_draft
           (JS.lit "Dune") (JS.lit "   ")).
  - reflexivity.
  - reflexivity.
  - right. reflexivity.
Defined.

(** C3. When the title and the author of the draft are not empty after
    trimming, submitting sends the create request.  If it succeeds, [books]
    becomes the books of before followed by the returned record, the draft
    is reset to empty fields, that is, [title], [author] and [description]
    are the empty string and there is no other field, and [error] is
    cleared; if it fails, [error] is set and [books] and the draft are
    unchanged. *)
Theorem handleAddBook_outcome
    (env : option jsstring) (defaults localStorage : gmap jsstring jsstring)
    (renders : nat) (network : ∀ m : Method, Config → Settled (reply m))
    (s : State) (t a : jsstring) :
  newBook s !! JS.lit "title" = Some t →
  newBook s !! JS.lit "author" = Some a →
  JS.trim t ≠ [] → JS.trim a ≠ [] →
  let r := run localStorage renders network (handleAddBook env defaults s) s in
  let sent := dispatch localStorage renders
                (Axios.post (API_BASE_URL env ++ JS.lit "/books") (newBook s) defaults) in
  requests r = [(POST, sent)] ∧
  match network POST sent with
  | Fulfilled record =>
      books (final r) = books s ++ [record] ∧
      newBook (final r) = emptyBook ∧
      (newBook (final r) !! JS.lit "title" = Some [] ∧
       newBook (final r) !! JS.lit "author" = Some [] ∧
       newBook (final r) !! JS.lit "description" = Some [] ∧
       ∀ field : jsstring,
         newBook (final r) !! field =
           if decide (field = JS.lit "title" ∨ field = JS.lit "author"
                      ∨ field = JS.lit "description")
           then Some [] else None) ∧
      error (final r) = []
  | Rejected err =>
      error (final r) ≠ [] ∧
      books (final r) = books s ∧
      newBook (final r) = newBook s
  end.
Proof.
  intros Ht Ha Nt Na r sent. subst r sent.
  rewrite (handleAddBook_filled env defaults s t a Ht Ha Nt Na), run_submit.
  unfold final, requests. cbv zeta. cbn [fst snd].
  split; [reflexivity|].
  destruct (network POST _) as [record|err]; cbn.
  - split; [reflexivity|]. split; [reflexivity|]. split; [|reflexivity].
    split; [reflexivity|]. split; [reflexivity|]. split; [reflexivity|].
    apply emptyBook_lookup.
  - repeat split. apply or_else_truthy. discriminate.
Qed.

Lemma handleAddBook_outcome_witness :
  let r := run ∅ 1 obliging (handleAddBook None ∅ dune_draft) dune_draft in
  books (final r) = [dune] ∧
  newBook (final r) = emptyBook ∧
  (newBook (final r) !! JS.lit "title" = Some [] ∧
   newBook (final r) !! JS.lit "author" = Some [] ∧
   newBook (final r) !! JS.lit "description" = Some [] ∧
   ∀ field : jsstring,
     newBook (final r) !! field =
       if decide (field = JS.lit "title" ∨ field = JS.lit "author"
                  ∨ field = JS.lit "description")
       then Some [] else None) ∧
  error (final r) = [].
Proof.
  refine (proj2 (handleAddBook_outcome None ∅ ∅ 1 obliging dune_draft
                   (JS.lit " Dune ") (JS.lit "Herbert") _ _ _ _)).
  - reflexivity.
  - reflexivity.
  - vm_compute. discriminate.
  - vm_compute. discriminate.
Defined.

(** C10. The guard trims only to test for emptiness: a draft whose title
    and author are not empty after trimming passes it, whatever white space
    surrounds them, and the body of the create request is the draft as it
    stands, with the title and the author untrimmed. *)
Theorem handleAddBook_sends_draft_verbatim
    (env : option jsstring) (defaults localStorage : gmap jsstring jsstring)
    (renders : nat) (network : ∀ m : Method, Config → Settled (reply m))
    (s : State) (t a : jsstring) :
  newBook s !! JS.lit "title" = Some t →
  newBook s !! JS.lit "author" = Some a →
  JS.trim t ≠ [] → JS.trim a ≠ [] →
  ∃ sent body,
    requests (run localStorage renders network (handleAddBook env defaults s) s)
      = [(POST, sent)] ∧
    data sent = Some body ∧
    body = newBook s ∧
    body !! JS.lit "title" = Some t ∧
    body !! JS.lit "author" = Some a.
Proof.
  intros Ht Ha Nt Na.
  rewrite (handleAddBook_filled env defaults s t a Ht Ha Nt Na), run_submit.
  exists (dispatch localStorage renders
            (Axios.post (API_BASE_URL env ++ JS.lit "/books") (newBook s) defaults)),
         (newBook s).
  rewrite dispatch_data. repeat split; assumption.
Qed.

Lemma handleAddBook_sends_draft_verbatim_witness :
  JS.trim (JS.lit " Dune ") = JS.lit "Dune" ∧
  ∃ sent body,
    requests (run ∅ 1 obliging (handleAddBook None ∅ dune_draft) dune_draft)
      = [(POST, sent)] ∧
    data sent = Some body ∧
    body = newBook dune_draft ∧
    body !! JS.lit "title" = Some (JS.lit " Dune ") ∧
    body !! JS.lit "author" = Some (JS.lit "Herbert").
Proof.
  split; [reflexivity|].
  apply (handleAddBook_sends_draft_verbatim None ∅ ∅ 1 obliging dune_draft
           (JS.lit " Dune ") (JS.lit "Herbert")).
  - reflexivity.
  - reflexivity.
  - vm_compute. discriminate.
  - vm_compute. discriminate.
Defined.







(** C7, as stated, fails: a token that is stored but empty is present in
    the storage, and no header is attached for it. *)
Lemma bearer_for_every_stored_token_counterexample :
  ¬ (∀ (localStorage : gmap jsstring jsstring) (config : Config) (token : jsstring),
       getItem localStorage (JS.lit "token") = Some token →
       headers (dispatch localStorage 1 config) !! JS.lit "Authorization"
         = Some (JS.lit "Bearer " ++ token)).
Proof.
  intros H.
  specialize (H (<[JS.lit "token" := []]> ∅) (Axios.get (JS.lit "/books") ∅) []).
  discriminate H. reflexivity.
Qed.

(** C7, amended. Once the component has rendered, a request leaves with
    its [Authorization] header set to "Bearer " followed by the token when
    the storage holds a token that is not the empty string; when it holds
    no token or an empty one, the headers of the request are left as they
    were.  The url and the body are never changed. *)
Theorem dispatch_bearer
    (localStorage : gmap jsstring jsstring) (renders : nat) (config : Config) :
  (0 < renders)%nat →
  let sent := dispatch localStorage renders config in
  url sent = url config ∧
  data sent = data config ∧
  match getItem localStorage (JS.lit "token") with
  | Some (c :: token) =>
      headers sent !! JS.lit "Authorization" = Some (JS.lit "Bearer " ++ c :: token) ∧
      headers sent =
        <[JS.lit "Authorization" := JS.lit "Bearer " ++ c :: token]> (headers config)
  | Some [] | None => headers sent = headers config
  end.
Proof.
  intros Hr sent. subst sent.
  destruct renders as [|n]; [inversion Hr|].
  rewrite dispatch_once, interceptor_url, interceptor_data, interceptor_headers.
  repeat split.
  destruct (getItem localStorage (JS.lit "token")) as [[|c token]|];
    [reflexivity| |reflexivity].
  split; [apply lookup_insert_eq | reflexivity].
Qed.

Lemma dispatch_bearer_witness :
  let sent := dispatch (<[JS.lit "token" := JS.lit "abc"]> ∅) 3
                (Axios.get (JS.lit "/books") ∅) in
  url sent = JS.lit "/books" ∧
  data sent = None ∧
  headers sent !! JS.lit "Authorization" = Some (JS.lit "Bearer abc") ∧
  headers sent = <[JS.lit "Authorization" := JS.lit "Bearer abc"]> ∅.
Proof.
  assert (Hr : (0 < 3)%nat) by lia.
  exact (dispatch_bearer (<[JS.lit "token" := JS.lit "abc"]> ∅) 3
           (Axios.get (JS.lit "/books") ∅) Hr).
Defined.

(** ** The server *)

Section ServerFacts.
Import Server.
Variable create_style : CreateStyle.
Variable delete_style : DeleteStyle.
Variable assign_id : list Book → jsstring.

Lemma required_absent_or_blank body field :
  required body field = false ↔ absent_or_blank body field.
Proof.
  unfold required, absent_or_blank. destruct (body !! field) as [v|]; [|tauto].
  rewrite negb_false_iff. apply isEmpty_nil.
Qed.

Lemma find_id_None id (store : list Book) :
  Forall (λ b, _id b ≠ id) store →
  find (λ b, bool_decide (_id b = id)) store = None.
Proof.
  induction 1 as [|b store Hb _ IH]; [reflexivity|]. simpl.
  rewrite bool_decide_eq_false_2 by exact Hb. exact IH.
Qed.

Lemma find_id_Some (b : Book) (before after : list Book) :
  ∃ b', find (λ x, bool_decide (_id x = _id b)) (before ++ b :: after) = Some b'.
Proof.
  induction before as [|x before IH]; simpl.
  - rewrite bool_decide_eq_true_2 by reflexivity. eauto.
  - destruct (bool_decide (_id x = _id b)); eauto.
Qed.

Lemma deleted_response_status b :
  status (deleted_response delete_style b) = 200
  ∨ status (deleted_response delete_style b) = 204.
Proof. destruct delete_style; simpl; auto. Qed.
End ServerFacts.

(** C1. A create request whose [title] or [author] is missing, empty or
    white space only is answered with status 400, a 4xx status, and a body
    carrying a message that is not empty; the store is left as it was. *)
Theorem create_book_rejects
    (create_style : Server.CreateStyle) (assign_id : list Book → jsstring)
    (body : gmap jsstring jsstring) (store : list Book) :
  Server.absent_or_blank body (JS.lit "title")
  ∨ Server.absent_or_blank body (JS.lit "author") →
  let '(response, store') := Server.create_book create_style assign_id body store in
  Server.status response = 400 ∧
  400 ≤ Server.status response < 500 ∧
  (∃ message, Server.payload response = Server.Message message ∧ message ≠ []) ∧
  store' = store.
Proof.
  intros H. unfold Server.create_book.
  assert (Hreq : Server.required body (JS.lit "title")
                 && Server.required body (JS.lit "author") = false).
  { apply andb_false_iff.
    destruct H as [H|H]; [left|right]; now apply required_absent_or_blank. }
  rewrite Hreq. simpl. repeat split; [lia..|].
  eexists. split; [reflexivity|discriminate].
Qed.

Lemma create_book_rejects_witness :
  let '(response, store') :=
    Server.create_book Server.Status201 (λ _, JS.lit "65f0c3") untitled shelf in
  Server.status response = 400 ∧
  400 ≤ Server.status response < 500 ∧
  (∃ message, Server.payload response = Server.Message message ∧ message ≠ []) ∧
  store' = shelf.
Proof.
  assert (H : Server.absent_or_blank untitled (JS.lit "title")
              ∨ Server.absent_or_blank untitled (JS.lit "author"))
    by (left; reflexivity).
  exact (create_book_rejects Server.Status201 (λ _, JS.lit "65f0c3") untitled shelf H).
Defined.

(** C8. Deleting an [id] that no record of the store has leaves the store
    as it was and is answered with status 404 and a message; deleting the
    [id] of a record of the store is answered with status 200 or 204. *)
Theorem delete_book_not_found
    (delete_style : Server.DeleteStyle) (id : jsstring) (store : list Book) :
  Forall (λ b, _id b ≠ id) store →
  (let '(response, store') := Server.delete_book delete_style id store in
   store' = store ∧
   Server.status response = 404 ∧
   ∃ message, Server.payload response = Server.Message message ∧ message ≠ []) ∧
  (∀ (b : Book) (before after : list Book),
     let '(response, store') :=
       Server.delete_book delete_style (_id b) (before ++ b :: after) in
     (Server.status response = 200 ∨ Server.status response = 204) ∧
     Forall (λ x, _id x ≠ _id b) store').
Proof.
  intros Hnone. split.
  - unfold Server.delete_book. rewrite (find_id_None id store Hnone).
    repeat split. eexists. split; [reflexivity|discriminate].
  - intros b before after. unfold Server.delete_book.
    destruct (find_id_Some b before after) as [b' ->].
    split; [apply deleted_response_status|].
    apply Forall_forall. intros x Hx. apply list_elem_of_filter in Hx. tauto.
Qed.

Lemma delete_book_not_found_witness :
  let '(response, store') :=
    Server.delete_book Server.NoContent204 (JS.lit "000000") shelf in
  store' = shelf ∧
  Server.status response = 404 ∧
  ∃ message, Server.payload response = Server.Message message ∧ message ≠ [].
Proof.
  assert (H : Forall (λ b, _id b ≠ JS.lit "000000") shelf)
    by (repeat constructor; vm_compute; discriminate).
  exact (proj1 (delete_book_not_found Server.NoContent204 (JS.lit "000000") shelf H)).
Defined.

(** * Further properties of the client *)

(** ** Loading the list *)

(** X1. [fetchBooks] sends one GET for the collection.  When it is
    fulfilled, [books] becomes the array of the response, whatever it held
    before, and [error] is cleared; when it is rejected, [books] keeps its
    value and [error] is not empty.  Either way the draft is untouched and
    [loading] ends off. *)
Theorem fetchBooks_outcome
    (env : option jsstring) (defaults localStorage : gmap jsstring jsstring)
    (renders : nat) (network : ∀ m : Method, Config → Settled (reply m))
    (s : State) :
  let r := run localStorage renders network (fetchBooks env defaults) s in
  let sent := dispatch localStorage renders
                (Axios.get (API_BASE_URL env ++ JS.lit "/books") defaults) in
  requests r = [(GET, sent)] ∧
  completion r = Returned ∧
  newBook (final r) = newBook s ∧
  loading (final r) = false ∧
  match network GET sent with
  | Fulfilled response_data =>
      books (final r) = response_data ∧ error (final r) = []
  | Rejected err =>
      books (final r) = books s ∧ error (final r) ≠ []
  end.
Proof.
  intros r sent. subst r sent. rewrite run_fetchBooks.
  unfold final, requests, completion. simpl.
  destruct (network GET _) as [l|err]; simpl; repeat split.
  apply or_else_truthy. discriminate.
Qed.

(** ** The guard of the form *)

(** X2. [handleAddBook] throws exactly when the draft has no [title], or has
    a title that is not blank and no [author]: a blank title is rejected
    before the author is looked at.  When it throws, nothing has been set
    and nothing has been sent. *)
Theorem handleAddBook_throws_iff
    (env : option jsstring) (defaults localStorage : gmap jsstring jsstring)
    (renders : nat) (network : ∀ m : Method, Config → Settled (reply m))
    (s : State) :
  let r := run localStorage renders network (handleAddBook env defaults s) s in
  (completion r = Threw ↔
     newBook s !! JS.lit "title" = None
     ∨ (∃ t, newBook s !! JS.lit "title" = Some t ∧ JS.trim t ≠ []
             ∧ newBook s !! JS.lit "author" = None)) ∧
  (completion r = Threw → final r = s ∧ requests r = []).
Proof.
  intros r. subst r. unfold handleAddBook.
  destruct (newBook s !! JS.lit "title") as [t|] eqn:Ht.
  2:{ split; [split; [auto | reflexivity] | intros _; split; reflexivity]. }
  destruct (JS.isEmpty (JS.trim t)) eqn:Et.
  { apply isEmpty_nil in Et. split; [|discriminate].
    split; [discriminate|]. intros [H|(t' & H & Nt & _)]; [discriminate|].
    injection H as <-. contradiction. }
  assert (Nt : JS.trim t ≠ []).
  { intros H. rewrite H in Et. discriminate. }
  destruct (newBook s !! JS.lit "author") as [a|] eqn:Ha.
  2:{ split; [split; [eauto | reflexivity] | intros _; split; reflexivity]. }
  assert (Hret : completion
            (run localStorage renders network
               (if JS.isEmpty (JS.trim a)
                then setError (JS.lit "Title and Author are required fields") Done
                else setLoading true
                       (Await POST
                          (Axios.post (API_BASE_URL env ++ JS.lit "/books")
                             (newBook s) defaults)
                          (handleAddBook_settled s))) s) = Returned).
  { destruct (JS.isEmpty (JS.trim a)); [reflexivity|].
    simpl. destruct (network POST _); reflexivity. }
  rewrite Hret. split; [|discriminate].
  split; [discriminate|].
  intros [H|(t' & _ & _ & H)]; discriminate.
Qed.

Lemma blank_false_Exists (x : jsstring) :
  JS.blank x = false ↔ Exists (λ c, JS.strippable c = false) x.
Proof.
  induction x as [|c x IH]; simpl.
  - split; [discriminate | intros H; inversion H].
  - rewrite Exists_cons, <- IH. unfold JS.blank. simpl.
    destruct (JS.strippable c); simpl; intuition congruence.
Qed.

(** X3. [handleAddBook] sends a request exactly when both the title and the
    author of the draft hold a character that [trim] does not strip; the
    request is then the one POST of the draft. *)
Theorem handleAddBook_sends_iff
    (env : option jsstring) (defaults localStorage : gmap jsstring jsstring)
    (renders : nat) (network : ∀ m : Method, Config → Settled (reply m))
    (s : State) :
  let r := run localStorage renders network (handleAddBook env defaults s) s in
  let sent := dispatch localStorage renders
                (Axios.post (API_BASE_URL env ++ JS.lit "/books") (newBook s) defaults) in
  (requests r = [] ∨ requests r = [(POST, sent)]) ∧
  (requests r = [(POST, sent)] ↔
     ∃ t a, newBook s !! JS.lit "title" = Some t
            ∧ newBook s !! JS.lit "author" = Some a
            ∧ Exists (λ c, JS.strippable c = false) t
            ∧ Exists (λ c, JS.strippable c = false) a).
Proof.
  intros r sent. subst r sent. unfold handleAddBook.
  destruct (newBook s !! JS.lit "title") as [t|] eqn:Ht.
  2:{ split; [left; reflexivity|].
      split; [discriminate | intros (t & a & H & _); discriminate]. }
  rewrite trim_empty. destruct (JS.blank t) eqn:Bt.
  { split; [left; reflexivity|]. split; [discriminate|].
    intros (t' & a & H & _ & Et & _). injection H as <-.
    apply blank_false_Exists in Et. congruence. }
  destruct (newBook s !! JS.lit "author") as [a|] eqn:Ha.
  2:{ split; [left; reflexivity|].
      split; [discriminate | intros (t' & a & _ & H & _); discriminate]. }
  rewrite trim_empty. destruct (JS.blank a) eqn:Ba.
  { split; [left; reflexivity|]. split; [discriminate|].
    intros (t' & a' & _ & H & _ & Ea). injection H as <-.
    apply blank_false_Exists in Ea. congruence. }
  rewrite run_submit. unfold requests. simpl.
  split; [right; reflexivity|]. split; [|reflexivity].
  intros _. exists t, a. repeat split; try reflexivity;
    now apply blank_false_Exists.
Qed.

(** ** Operations one after the other

    Below, a handler is run to its end and the next one is the handler of
    the render that follows, closed over the state the first one left. *)

Lemma filter_Forall_id {A} (P : A → Prop) `{∀ x, Decision (P x)} (l : list A) :
  Forall P l → filter P l = l.
Proof.
  induction 1 as [|x l Hx _ IH]; [reflexivity|].
  rewrite filter_cons_True by exact Hx. now rewrite IH.
Qed.

Lemma filter_idempotent {A} (P : A → Prop) `{∀ x, Decision (P x)} (l : list A) :
  filter P (filter P l) = filter P l.
Proof.
  apply filter_Forall_id, Forall_forall. intros x Hx.
  apply list_elem_of_filter in Hx. tauto.
Qed.

(** X4. Creating a record and then deleting the [_id] the server gave it
    brings [books] back to what it was, provided no listed record already
    had that [_id]. *)
Theorem create_then_delete_restores
    (env : option jsstring) (defaults localStorage : gmap jsstring jsstring)
    (renders : nat) (network : ∀ m : Method, Config → Settled (reply m))
    (s : State) (t a : jsstring) (record : Book) :
  newBook s !! JS.lit "title" = Some t →
  newBook s !! JS.lit "author" = Some a →
  JS.trim t ≠ [] → JS.trim a ≠ [] →
  network POST
    (dispatch localStorage renders
       (Axios.post (API_BASE_URL env ++ JS.lit "/books") (newBook s) defaults))
    = Fulfilled record →
  network DELETE
    (dispatch localStorage renders
       (Axios.delete (API_BASE_URL env ++ JS.lit "/books/" ++ _id record) defaults))
    = Fulfilled tt →
  Forall (λ book, _id book ≠ _id record) (books s) →
  let s1 := final (run localStorage renders network (handleAddBook env defaults s) s) in
  let s2 := final (run localStorage renders network
                     (handleDeleteBook env defaults s1 (_id record)) s1) in
  books s1 = books s ++ [record] ∧ books s2 = books s.
Proof.
  intros Ht Ha Nt Na Hpost Hdel Hfresh s1 s2.
  assert (H1 : books s1 = books s ++ [record]).
  { subst s1. rewrite (handleAddBook_filled env defaults s t a Ht Ha Nt Na), run_submit.
    cbv zeta. rewrite Hpost. reflexivity. }
  split; [exact H1|]. subst s2. rewrite run_handleDeleteBook.
  cbv zeta. rewrite Hdel. unfold final. simpl. rewrite H1, filter_app.
  rewrite (filter_Forall_id _ _ Hfresh).
  rewrite filter_cons_False by (intros H; now apply H).
  apply app_nil_r.
Qed.

Lemma create_then_delete_restores_witness :
  let s1 := final (run ∅ 1 obliging (handleAddBook None ∅ emma_listed) emma_listed) in
  let s2 := final (run ∅ 1 obliging (handleDeleteBook None ∅ s1 (_id dune)) s1) in
  books s1 = [emma; dune] ∧ books s2 = [emma].
Proof.
  assert (Nt : JS.trim (JS.lit " Dune ") ≠ []) by (vm_compute; discriminate).
  assert (Na : JS.trim (JS.lit "Herbert") ≠ []) by (vm_compute; discriminate).
  assert (Hfresh : Forall (λ book, _id book ≠ _id dune) (books emma_listed))
    by (repeat constructor; vm_compute; discriminate).
  exact (create_then_delete_restores None ∅ ∅ 1 obliging emma_listed
           (JS.lit " Dune ") (JS.lit "Herbert") dune
           eq_refl eq_refl Nt Na eq_refl eq_refl Hfresh).
Defined.

(** X5. A fulfilled delete of an [_id] that no listed record has leaves
    [books] as it was, and so does a second fulfilled delete of the same
    [_id]; the request is sent all the same. *)
Theorem handleDeleteBook_again
    (env : option jsstring) (defaults localStorage : gmap jsstring jsstring)
    (renders : nat) (network : ∀ m : Method, Config → Settled (reply m))
    (s : State) (id : jsstring) :
  network DELETE
    (dispatch localStorage renders
       (Axios.delete (API_BASE_URL env ++ JS.lit "/books/" ++ id) defaults))
    = Fulfilled tt →
  let r1 := run localStorage renders network (handleDeleteBook env defaults s id) s in
  let r2 := run localStorage renders network
              (handleDeleteBook env defaults (final r1) id) (final r1) in
  books (final r2) = books (final r1) ∧
  requests r2 = requests r1 ∧
  length (requests r1) = 1%nat ∧
  (Forall (λ book, _id book ≠ id) (books s) → books (final r1) = books s).
Proof.
  intros Hdel r1 r2. subst r2.
  rewrite run_handleDeleteBook. cbv zeta. rewrite Hdel.
  subst r1. rewrite run_handleDeleteBook. cbv zeta. rewrite Hdel.
  unfold final, requests. simpl. repeat split.
  - apply filter_idempotent.
  - apply filter_Forall_id.
Qed.

Lemma handleDeleteBook_again_witness :
  let r1 := run ∅ 1 obliging (handleDeleteBook None ∅ emma_listed (JS.lit "000000"))
              emma_listed in
  let r2 := run ∅ 1 obliging (handleDeleteBook None ∅ (final r1) (JS.lit "000000"))
              (final r1) in
  books (final r2) = books (final r1) ∧
  requests r2 = requests r1 ∧
  length (requests r1) = 1%nat ∧
  (Forall (λ book, _id book ≠ JS.lit "000000") (books emma_listed) →
   books (final r1) = books emma_listed).
Proof.
  exact (handleDeleteBook_again None ∅ ∅ 1 obliging emma_listed (JS.lit "000000")
           eq_refl).
Defined.

(** X6. After a create that succeeded the draft is empty, so submitting
    again without typing is turned down by the guard: nothing is sent,
    [books] keeps the new record and [error] names the required fields. *)
Theorem resubmit_after_success_rejected
    (env : option jsstring) (defaults localStorage : gmap jsstring jsstring)
    (renders : nat) (network : ∀ m : Method, Config → Settled (reply m))
    (s : State) (t a : jsstring) (record : Book) :
  newBook s !! JS.lit "title" = Some t →
  newBook s !! JS.lit "author" = Some a →
  JS.trim t ≠ [] → JS.trim a ≠ [] →
  network POST
    (dispatch localStorage renders
       (Axios.post (API_BASE_URL env ++ JS.lit "/books") (newBook s) defaults))
    = Fulfilled record →
  let s1 := final (run localStorage renders network (handleAddBook env defaults s) s) in
  let r2 := run localStorage renders network (handleAddBook env defaults s1) s1 in
  requests r2 = [] ∧
  books (final r2) = books s ++ [record] ∧
  error (final r2) = JS.lit "Title and Author are required fields" ∧
  loading (final r2) = false.
Proof.
  intros Ht Ha Nt Na Hpost s1 r2.
  assert (H1 : s1 = {| books := books s ++ [record]; newBook := emptyBook;
                       loading := false; error := [] |}).
  { subst s1. rewrite (handleAddBook_filled env defaults s t a Ht Ha Nt Na), run_submit.
    cbv zeta. rewrite Hpost. reflexivity. }
  subst r2. rewrite H1. repeat split.
Qed.

Lemma resubmit_after_success_rejected_witness :
  let s1 := final (run ∅ 1 obliging (handleAddBook None ∅ emma_listed) emma_listed) in
  let r2 := run ∅ 1 obliging (handleAddBook None ∅ s1) s1 in
  requests r2 = [] ∧
  books (final r2) = books emma_listed ++ [dune] ∧
  error (final r2) = JS.lit "Title and Author are required fields" ∧
  loading (final r2) = false.
Proof.
  assert (Nt : JS.trim (JS.lit " Dune ") ≠ []) by (vm_compute; discriminate).
  assert (Na : JS.trim (JS.lit "Herbert") ≠ []) by (vm_compute; discriminate).
  exact (resubmit_after_success_rejected None ∅ ∅ 1 obliging emma_listed
           (JS.lit " Dune ") (JS.lit "Herbert") dune eq_refl eq_refl Nt Na eq_refl).
Defined.

(** X7. After a create that failed the draft is still there, so submitting
    again sends the very same request, whatever the network answers the
    second time. *)
Theorem resubmit_after_failure_same_request
    (env : option jsstring) (defaults localStorage : gmap jsstring jsstring)
    (renders : nat) (network again : ∀ m : Method, Config → Settled (reply m))
    (s : State) (t a : jsstring) (err : AxiosError) :
  newBook s !! JS.lit "title" = Some t →
  newBook s !! JS.lit "author" = Some a →
  JS.trim t ≠ [] → JS.trim a ≠ [] →
  network POST
    (dispatch localStorage renders
       (Axios.post (API_BASE_URL env ++ JS.lit "/books") (newBook s) defaults))
    = Rejected err →
  let r1 := run localStorage renders network (handleAddBook env defaults s) s in
  let r2 := run localStorage renders again
              (handleAddBook env defaults (final r1)) (final r1) in
  newBook (final r1) = newBook s ∧
  requests r2 = requests r1 ∧
  length (requests r1) = 1%nat.
Proof.
  intros Ht Ha Nt Na Hpost r1 r2.
  assert (H1 : r1 = (with_loading false
                       (with_error (JS.or_else (response_message err)
                                      (JS.lit "Failed to add book"))
                          (with_loading true s)),
                     [(POST, dispatch localStorage renders
                               (Axios.post (API_BASE_URL env ++ JS.lit "/books")
                                  (newBook s) defaults))], Returned)).
  { subst r1. rewrite (handleAddBook_filled env defaults s t a Ht Ha Nt Na), run_submit.
    cbv zeta. rewrite Hpost. reflexivity. }
  subst r2. rewrite H1. unfold final. cbn [fst snd].
  set (s1 := with_loading false _).
  rewrite (handleAddBook_filled env defaults s1 t a Ht Ha Nt Na), run_submit.
  repeat split.
Qed.

Lemma resubmit_after_failure_same_request_witness :
  let r1 := run ∅ 1 refusing (handleAddBook None ∅ emma_listed) emma_listed in
  let r2 := run ∅ 1 obliging (handleAddBook None ∅ (final r1)) (final r1) in
  newBook (final r1) = newBook emma_listed ∧
  requests r2 = requests r1 ∧
  length (requests r1) = 1%nat.
Proof.
  assert (Nt : JS.trim (JS.lit " Dune ") ≠ []) by (vm_compute; discriminate).
  assert (Na : JS.trim (JS.lit "Herbert") ≠ []) by (vm_compute; discriminate).
  exact (resubmit_after_failure_same_request None ∅ ∅ 1 refusing obliging emma_listed
           (JS.lit " Dune ") (JS.lit "Herbert") not_found eq_refl eq_refl Nt Na eq_refl).
Defined.

(** X8. Typing a title and an author that are not blank and then
    submitting sends exactly what was typed: the body of the POST has that
    title and that author, and every other field of the draft as it was.
    The order in which the two fields were typed makes no difference. *)
Theorem typed_then_submitted
    (env : option jsstring) (defaults localStorage : gmap jsstring jsstring)
    (renders : nat) (network : ∀ m : Method, Config → Settled (reply m))
    (s : State) (t a : jsstring) :
  JS.trim t ≠ [] → JS.trim a ≠ [] →
  let type (field v : jsstring) (s0 : State) : State :=
    final (run localStorage renders network
             (handleInputChange s0 {| name := field; value := v |}) s0) in
  let s2 := type (JS.lit "author") a (type (JS.lit "title") t s) in
  let s2' := type (JS.lit "title") t (type (JS.lit "author") a s) in
  newBook s2' = newBook s2 ∧
  ∃ sent body,
    requests (run localStorage renders network (handleAddBook env defaults s2) s2)
      = [(POST, sent)] ∧
    data sent = Some body ∧
    body !! JS.lit "title" = Some t ∧
    body !! JS.lit "author" = Some a ∧
    ∀ field, field ≠ JS.lit "title" → field ≠ JS.lit "author" →
             body !! field = newBook s !! field.
Proof.
  intros Nt Na type s2 s2'.
  assert (Hne : JS.lit "author" ≠ JS.lit "title") by (vm_compute; discriminate).
  assert (H2 : newBook s2 =
               <[JS.lit "author" := a]> (<[JS.lit "title" := t]> (newBook s)))
    by reflexivity.
  assert (Ht : newBook s2 !! JS.lit "title" = Some t).
  { rewrite H2, lookup_insert_ne by exact Hne. apply lookup_insert_eq. }
  assert (Ha : newBook s2 !! JS.lit "author" = Some a).
  { rewrite H2. apply lookup_insert_eq. }
  split.
  - rewrite H2. change (newBook s2') with
      (<[JS.lit "title" := t]> (<[JS.lit "author" := a]> (newBook s))).
    apply insert_insert_ne. congruence.
  - rewrite (handleAddBook_filled env defaults s2 t a Ht Ha Nt Na), run_submit.
    eexists _, (newBook s2). split; [reflexivity|].
    rewrite dispatch_data. repeat split; try assumption.
    intros field H1 H3. rewrite H2.
    rewrite !lookup_insert_ne by congruence. reflexivity.
Qed.

Lemma typed_then_submitted_witness :
  let type (field v : jsstring) (s0 : State) : State :=
    final (run ∅ 1 obliging
             (handleInputChange s0 {| name := field; value := v |}) s0) in
  let s2 := type (JS.lit "author") (JS.lit "Herbert")
              (type (JS.lit "title") (JS.lit " Dune ") initial) in
  let s2' := type (JS.lit "title") (JS.lit " Dune ")
               (type (JS.lit "author") (JS.lit "Herbert") initial) in
  newBook s2' = newBook s2 ∧
  ∃ sent body,
    requests (run ∅ 1 obliging (handleAddBook None ∅ s2) s2) = [(POST, sent)] ∧
    data sent = Some body ∧
    body !! JS.lit "title" = Some (JS.lit " Dune ") ∧
    body !! JS.lit "author" = Some (JS.lit "Herbert") ∧
    ∀ field, field ≠ JS.lit "title" → field ≠ JS.lit "author" →
             body !! field = newBook initial !! field.
Proof.
  assert (Nt : JS.trim (JS.lit " Dune ") ≠ []) by (vm_compute; discriminate).
  assert (Na : JS.trim (JS.lit "Herbert") ≠ []) by (vm_compute; discriminate).
  exact (typed_then_submitted None ∅ ∅ 1 obliging initial
           (JS.lit " Dune ") (JS.lit "Herbert") Nt Na).
Defined.

(** ** The interceptor and the urls *)

(** X9. [App] installs one more copy of the interceptor at every render;
    the request that leaves is the same whatever the number of copies, as
    long as there is one. *)
Theorem dispatch_any_number_of_renders
    (localStorage : gmap jsstring jsstring) (n m : nat) (config : Config) :
  (0 < n)%nat → (0 < m)%nat →
  dispatch localStorage n config = dispatch localStorage m config ∧
  dispatch localStorage n config = interceptor localStorage config.
Proof.
  intros Hn Hm. destruct n as [|n]; [inversion Hn|].
  destruct m as [|m]; [inversion Hm|].
  rewrite !dispatch_once. split; reflexivity.
Qed.

Lemma dispatch_any_number_of_renders_witness :
  let ls : gmap jsstring jsstring := <[JS.lit "token" := JS.lit "abc"]> ∅ in
  let config := Axios.get (JS.lit "/books") ∅ in
  dispatch ls 1 config = dispatch ls 7 config ∧
  dispatch ls 1 config = interceptor ls config.
Proof.
  assert (H1 : (0 < 1)%nat) by lia.
  assert (H7 : (0 < 7)%nat) by lia.
  exact (dispatch_any_number_of_renders (<[JS.lit "token" := JS.lit "abc"]> ∅) 1 7
           (Axios.get (JS.lit "/books") ∅) H1 H7).
Defined.

(** X10. The interceptors touch no header but [Authorization]: every other
    header of a request leaves as it was put on the config. *)
Theorem dispatch_other_headers
    (localStorage : gmap jsstring jsstring) (renders : nat) (config : Config)
    (header : jsstring) :
  header ≠ JS.lit "Authorization" →
  headers (dispatch localStorage renders config) !! header
    = headers config !! header.
Proof.
  intros Hne. destruct renders as [|n]; [reflexivity|].
  rewrite dispatch_once, interceptor_headers.
  destruct (getItem localStorage (JS.lit "token")) as [[|c t]|]; try reflexivity.
  apply lookup_insert_ne. congruence.
Qed.

Lemma dispatch_other_headers_witness :
  let ls : gmap jsstring jsstring := <[JS.lit "token" := JS.lit "abc"]> ∅ in
  let config := Axios.get (JS.lit "/books")
                  (<[JS.lit "Accept" := JS.lit "application/json"]> ∅) in
  headers (dispatch ls 2 config) !! JS.lit "Accept" = Some (JS.lit "application/json").
Proof.
  assert (Hne : JS.lit "Accept" ≠ JS.lit "Authorization")
    by (vm_compute; discriminate).
  exact (dispatch_other_headers (<[JS.lit "token" := JS.lit "abc"]> ∅) 2
           (Axios.get (JS.lit "/books")
              (<[JS.lit "Accept" := JS.lit "application/json"]> ∅))
           (JS.lit "Accept") Hne).
Defined.

(** X11. The url of a delete request is the url of the collection, a
    slash and the [_id] as it is: two deletes that send the same request
    were asked for the same [_id]. *)
Theorem handleDeleteBook_url
    (env : option jsstring) (defaults localStorage : gmap jsstring jsstring)
    (renders : nat) (network : ∀ m : Method, Config → Settled (reply m))
    (s1 s2 : State) (id1 id2 : jsstring) :
  let collection :=
    url (dispatch localStorage renders
           (Axios.get (API_BASE_URL env ++ JS.lit "/books") defaults)) in
  let sent (s : State) (id : jsstring) :=
    requests (run localStorage renders network (handleDeleteBook env defaults s id) s) in
  (∃ config, sent s1 id1 = [(DELETE, config)]
             ∧ url config = collection ++ JS.lit "/" ++ id1) ∧
  (sent s1 id1 = sent s2 id2 → id1 = id2).
Proof.
  intros collection sent. subst collection sent. cbv beta.
  rewrite !run_handleDeleteBook. unfold requests. cbn [fst snd].
  split.
  - eexists. split; [reflexivity|]. rewrite !dispatch_url.
    unfold Axios.delete, Axios.get. cbn [url].
    now rewrite <- app_assoc.
  - intros H. injection H as H. apply (f_equal url) in H.
    rewrite !dispatch_url in H. unfold Axios.delete in H. cbn [url] in H.
    apply app_inv_head in H.
    exact (app_inv_head (JS.lit "/books/") id1 id2 H).
Qed.

(** ** The rendered tree *)

Lemma triggers_bookCard (loading : bool) (book : Book) :
  triggers (bookCard loading book)
    = if loading then [] else [Pressing (_id book)].
Proof.
  unfold bookCard, and_then.
  destruct loading, (description book) as [[|c d]|]; reflexivity.
Qed.

Lemma triggers_cards (loading : bool) (l : list Book) :
  flat_map triggers (map (bookCard loading) l)
    = if loading then [] else map (λ book, Pressing (_id book)) l.
Proof.
  induction l as [|book l IH].
  - destruct loading; reflexivity.
  - change (flat_map triggers (map (bookCard loading) (book :: l)))
      with (triggers (bookCard loading book)
              ++ flat_map triggers (map (bookCard loading) l)).
    rewrite IH, triggers_bookCard. destruct loading; reflexivity.
Qed.

Lemma triggers_render (s : State) :
  triggers (render s)
    = if loading s then []
      else [Submitting; Typing (JS.lit "title"); Typing (JS.lit "author");
            Typing (JS.lit "description")]
           ++ map (λ book, Pressing (_id book)) (books s).
Proof.
  unfold render.
  destruct (books s) as [|book l] eqn:Hb.
  - unfold and_then.
    destruct (loading s), (JS.isEmpty (error s)); reflexivity.
  - replace (loading s && (length (book :: l) =? 0)%nat) with false
      by (destruct (loading s); reflexivity).
    change ((length (book :: l) =? 0)%nat) with false. cbv iota.
    pose proof (triggers_cards (loading s) (book :: l)) as Hc.
    unfold and_then.
    destruct (loading s), (JS.isEmpty (error s)); simpl in *;
      rewrite ?app_nil_r in *; now rewrite Hc.
Qed.

(** ** The component driven through what it renders *)

Section UIFacts.
Variable REACT_APP_API_BASE_URL : option jsstring.
Variable defaults : gmap jsstring jsstring.
Variable served : Book → Prop.

Local Abbreviation invariant := (ui_invariant served).
Local Abbreviation ui_step := (App.ui_step REACT_APP_API_BASE_URL defaults served).

Lemma dom_emptyBook : dom emptyBook = form_fields.
Proof.
  unfold emptyBook, form_fields.
  rewrite !dom_insert_L, dom_empty_L, (right_id_L ∅ (∪)). reflexivity.
Qed.

Lemma Forall_filter_keeps {A} (P Q : A → Prop) `{∀ x, Decision (Q x)} (l : list A) :
  Forall P l → Forall P (filter Q l).
Proof.
  rewrite !Forall_forall. intros Hl x Hx.
  apply list_elem_of_filter in Hx. apply Hl. tauto.
Qed.

Lemma offers_loading s a : loading s = true → ¬ offers (render s) a.
Proof.
  intros Hl. unfold offers. rewrite triggers_render, Hl.
  destruct a; apply not_elem_of_nil.
Qed.

Lemma elem_of_form_fields (n : jsstring) :
  n ∈ form_fields ↔
    n = JS.lit "title" ∨ n = JS.lit "author" ∨ n = JS.lit "description".
Proof.
  unfold form_fields. rewrite !elem_of_union, !elem_of_singleton. tauto.
Qed.

Lemma offers_change s e :
  offers (render s) (Change e) → name e ∈ form_fields.
Proof.
  unfold offers. rewrite triggers_render.
  destruct (loading s); [intros H; now apply not_elem_of_nil in H|].
  rewrite elem_of_app, list_elem_of_fmap.
  intros [H|(book & H & _)]; [|discriminate].
  apply elem_of_form_fields.
  repeat (apply elem_of_cons in H as [H|H];
          [first [discriminate H | injection H as ->; tauto]|]).
  now apply not_elem_of_nil in H.
Qed.

Lemma ui_invariant_mounted :
  invariant (mounted REACT_APP_API_BASE_URL defaults).
Proof.
  split; [constructor|]. split; [apply dom_emptyBook|].
  right. split; [reflexivity|]. eexists. split; [reflexivity|].
  left. reflexivity.
Qed.

Lemma ui_invariant_step b b' : invariant b → ui_step b b' → invariant b'.
Proof.
  intros (Hserved & Hdom & Hphase) Hstep.
  destruct Hstep as [b a Hoffers|b before after p response Hin Hdel].
  - destruct Hphase as [[Hl Hi]|[Hl _]];
      [|now apply offers_loading in Hoffers].
    destruct b as [s waiting]. simpl in *. subst waiting.
    destruct a as [e| |id].
    + apply offers_change in Hoffers.
      split; [exact Hserved|]. split; [|left; split; [exact Hl|reflexivity]].
      simpl. rewrite dom_insert_L, Hdom.
      apply subseteq_union_1_L, singleton_subseteq_l, Hoffers.
    + unfold handler, handleAddBook.
      destruct (newBook s !! JS.lit "title") as [t|];
        [|split; [exact Hserved|]; split; [exact Hdom|]; left; split; [exact Hl|reflexivity]].
      destruct (JS.isEmpty (JS.trim t));
        [split; [exact Hserved|]; split; [exact Hdom|]; left; split; [exact Hl|reflexivity]|].
      destruct (newBook s !! JS.lit "author") as [au|];
        [|split; [exact Hserved|]; split; [exact Hdom|]; left; split; [exact Hl|reflexivity]].
      destruct (JS.isEmpty (JS.trim au));
        [split; [exact Hserved|]; split; [exact Hdom|]; left; split; [exact Hl|reflexivity]|].
      split; [exact Hserved|]. split; [exact Hdom|].
      right. split; [reflexivity|]. eexists. split; [reflexivity|].
      right. left. exists s. split; reflexivity.
    + split; [exact Hserved|]. split; [exact Hdom|].
      right. split; [reflexivity|]. eexists. split; [reflexivity|].
      right. right. exists s, id. split; reflexivity.
  - destruct Hphase as [[_ Hi]|[Hl (p0 & Hi & Hrest)]].
    { rewrite Hi in Hin. now destruct before. }
    rewrite Hi in Hin.
    assert (before = [] ∧ after = [] ∧ p = p0) as (-> & -> & ->).
    { destruct before as [|x [|y before]]; simpl in Hin;
        [injection Hin as Hp Ha; auto | discriminate Hin..]. }
    destruct b as [s waiting]. simpl in *.
    destruct Hrest as [->|[(render & Hshown & ->)|(render & id & Hshown & ->)]];
      simpl in *; destruct response as [response_data|err]; simpl;
      (split; [|split; [|left; split; reflexivity]]);
      try assumption.
    + simpl. rewrite Hshown. apply Forall_app. split; [exact Hserved|].
      constructor; [exact Hdel|constructor].
    + apply dom_emptyBook.
    + simpl. rewrite Hshown. now apply Forall_filter_keeps.
Qed.

Lemma ui_reachable_invariant b :
  ui_reachable REACT_APP_API_BASE_URL defaults served b → invariant b.
Proof.
  intros Hb. revert b Hb. apply rtc_ind_r.
  - exact ui_invariant_mounted.
  - intros b b' _ Hstep IH. exact (ui_invariant_step b b' IH Hstep).
Qed.
End UIFacts.

Lemma listed_reachable : reachable None ∅ listed.
Proof.
  apply rtc_once.
  exact (step_settled None ∅ (mounted None ∅) [] []
           {| awaited := GET; resume := fetchBooks_settled |}
           (Fulfilled [emma]) eq_refl).
Qed.

Lemma listed_ui_reachable : ui_reachable None ∅ only_emma listed.
Proof.
  apply rtc_once.
  refine (ui_settled None ∅ only_emma (mounted None ∅) [] []
            {| awaited := GET; resume := fetchBooks_settled |}
            (Fulfilled [emma]) eq_refl _).
  repeat constructor.
Qed.

(** X12. In no state the component can get to, however its handlers are
    called and however the calls they await interleave, does
    [handleAddBook] throw: the draft always has a [title] and an
    [author] to trim. *)
Theorem handleAddBook_never_throws
    (env : option jsstring) (defaults localStorage : gmap jsstring jsstring)
    (renders : nat) (network : ∀ m : Method, Config → Settled (reply m))
    (b : Browser) :
  reachable env defaults b →
  completion (run localStorage renders network
                (handleAddBook env defaults (state b)) (state b)) = Returned.
Proof.
  intros Hb. apply handleAddBook_no_throw.
  exact (reachable_draft_ok env defaults b Hb).
Qed.

Lemma handleAddBook_never_throws_witness :
  completion (run ∅ 1 obliging (handleAddBook None ∅ (state listed)) (state listed))
    = Returned.
Proof.
  exact (handleAddBook_never_throws None ∅ ∅ 1 obliging listed listed_reachable).
Defined.

(** The handlers the rendered tree can be made to call, [required] left
    aside: none while [loading] is on; otherwise [handleInputChange] for
    the title, author or description field, [handleAddBook], and
    [handleDeleteBook] for the [_id] of one of the listed books. *)
Lemma offers_iff (s : State) (a : Action) :
  offers (render s) a ↔
    loading s = false ∧
    match a with
    | Change e => name e ∈ form_fields
    | Submit => True
    | Remove id => ∃ book, book ∈ books s ∧ _id book = id
    end.
Proof.
  unfold offers. rewrite triggers_render. destruct (loading s).
  { split; [|intros [? _]; discriminate].
    destruct a; intros H; now apply not_elem_of_nil in H. }
  destruct a as [e| |id];
    rewrite elem_of_app, list_elem_of_fmap, ?elem_of_form_fields,
      !elem_of_cons, elem_of_nil.
  - split.
    + intros [H|(book & H & _)]; [|discriminate].
      repeat destruct H as [H|H]; try discriminate H; try contradiction;
        injection H as ->; auto.
    + intros [_ [-> | [-> | ->]]]; left; auto 10.
  - split; auto.
  - split.
    + intros [H|(book & H & Hin)].
      * repeat destruct H as [H|H]; try discriminate H; contradiction.
      * injection H as ->. eauto.
    + intros [_ (book & Hin & <-)]. right. eauto.
Qed.

(** X14. Driven through what it renders, the component never has more
    than one call in flight, and [loading] is on exactly while there is
    one. *)
Theorem ui_single_flight
    (env : option jsstring) (defaults : gmap jsstring jsstring)
    (served : Book → Prop) (b : Browser) :
  ui_reachable env defaults served b →
  (length (inflight b) ≤ 1)%nat ∧
  (loading (state b) = true ↔ inflight b ≠ []).
Proof.
  intros Hb.
  destruct (ui_reachable_invariant env defaults served b Hb)
    as (_ & _ & [[Hl Hi]|[Hl (p & Hi & _)]]); rewrite Hl, Hi; simpl.
  - split; [lia|]. split; [discriminate | congruence].
  - split; [lia|]. split; [discriminate | reflexivity].
Qed.

Lemma ui_single_flight_witness :
  (length (inflight listed) ≤ 1)%nat ∧
  (loading (state listed) = true ↔ inflight listed ≠ []).
Proof.
  exact (ui_single_flight None ∅ only_emma listed listed_ui_reachable).
Defined.

(** X15. Driven through what it renders, the component settles every call
    on the books it shows at that moment: a fulfilled create appends the
    returned record to them, a fulfilled delete filters them by one [_id],
    a fulfilled load replaces them, and a rejected call leaves them.  The
    handler then ends with [loading] off. *)
Theorem ui_settles_on_shown_books
    (env : option jsstring) (defaults : gmap jsstring jsstring)
    (served : Book → Prop) (b : Browser) (p : Suspended)
    (response : Settled (reply (awaited p))) :
  ui_reachable env defaults served b →
  p ∈ inflight b →
  let after := sync (resume p response) (state b) in
  after.2 = Done ∧
  loading after.1 = false ∧
  (match awaited p as m return Settled (reply m) → Prop with
   | GET => λ r,
       match r with
       | Fulfilled response_data => books after.1 = response_data
       | Rejected _ => books after.1 = books (state b)
       end
   | POST => λ r,
       match r with
       | Fulfilled response_data =>
           books after.1 = books (state b) ++ [response_data]
       | Rejected _ => books after.1 = books (state b)
       end
   | DELETE => λ r,
       match r with
       | Fulfilled _ =>
           ∃ id, books after.1 = filter (λ book, _id book ≠ id) (books (state b))
       | Rejected _ => books after.1 = books (state b)
       end
   end) response.
Proof.
  intros Hb Hp.
  destruct (ui_reachable_invariant env defaults served b Hb)
    as (_ & _ & [[_ Hi]|[_ (p0 & Hi & Hrest)]]);
    rewrite Hi in Hp; [now apply not_elem_of_nil in Hp|].
  apply list_elem_of_singleton in Hp. subst p0.
  destruct Hrest as [->|[(render & Hshown & ->)|(render & id & Hshown & ->)]];
    simpl in *; destruct response as [response_data|err]; simpl;
    rewrite <- ?Hshown; repeat split.
  exists id. reflexivity.
Qed.

Lemma ui_settles_on_shown_books_witness :
  let p := {| awaited := GET; resume := fetchBooks_settled |} in
  let after := sync (resume p (Fulfilled [emma])) (state (mounted None ∅)) in
  after.2 = Done ∧ loading after.1 = false ∧ books after.1 = [emma].
Proof.
  assert (Hb : ui_reachable None ∅ only_emma (mounted None ∅)) by apply rtc_refl.
  assert (Hp : {| awaited := GET; resume := fetchBooks_settled |}
               ∈ inflight (mounted None ∅)) by (left).
  exact (ui_settles_on_shown_books None ∅ only_emma (mounted None ∅)
           {| awaited := GET; resume := fetchBooks_settled |}
           (Fulfilled [emma]) Hb Hp).
Defined.

(** X16. Driven through what it renders, the component shows only records
    the server returned, and offers to delete only by the [_id] of such a
    record: it makes up no record and no [_id] of its own. *)
Theorem ui_books_from_server
    (env : option jsstring) (defaults : gmap jsstring jsstring)
    (served : Book → Prop) (b : Browser) :
  ui_reachable env defaults served b →
  Forall served (books (state b)) ∧
  ∀ id, offers (render (state b)) (Remove id) →
        ∃ book, book ∈ books (state b) ∧ served book ∧ _id book = id.
Proof.
  intros Hb.
  destruct (ui_reachable_invariant env defaults served b Hb) as (Hserved & _ & _).
  split; [exact Hserved|]. intros id Hoffers.
  unfold offers in Hoffers. rewrite triggers_render in Hoffers.
  destruct (loading (state b)); [now apply not_elem_of_nil in Hoffers|].
  apply elem_of_app in Hoffers as [H|H].
  - repeat (apply elem_of_cons in H as [H|H]; [discriminate H|]).
    now apply not_elem_of_nil in H.
  - apply list_elem_of_fmap in H as (book & H & Hin). injection H as ->.
    exists book. repeat split; [exact Hin|].
    rewrite Forall_forall in Hserved. now apply Hserved.
Qed.

Lemma ui_books_from_server_witness :
  Forall only_emma (books (state listed)) ∧
  ∀ id, offers (render (state listed)) (Remove id) →
        ∃ book, book ∈ books (state listed) ∧ only_emma book ∧ _id book = id.
Proof.
  exact (ui_books_from_server None ∅ only_emma listed listed_ui_reachable).
Defined.

(** X17. Driven through what it renders, the component keeps a draft with
    exactly the fields [title], [author] and [description], so these are
    the fields of the body of every create request. *)
Theorem ui_draft_fields
    (env : option jsstring) (defaults localStorage : gmap jsstring jsstring)
    (served : Book → Prop) (renders : nat)
    (network : ∀ m : Method, Config → Settled (reply m)) (b : Browser) :
  ui_reachable env defaults served b →
  dom (newBook (state b)) = form_fields ∧
  Forall (λ r : Request, ∃ body, data r.2 = Some body ∧ dom body = form_fields)
    (requests (run localStorage renders network
                 (handleAddBook env defaults (state b)) (state b))).
Proof.
  intros Hb.
  destruct (ui_reachable_invariant env defaults served b Hb) as (_ & Hdom & _).
  split; [exact Hdom|]. unfold handleAddBook.
  destruct (newBook (state b) !! JS.lit "title") as [t|]; [|constructor].
  destruct (JS.isEmpty (JS.trim t)); [constructor|].
  destruct (newBook (state b) !! JS.lit "author") as [a|]; [|constructor].
  destruct (JS.isEmpty (JS.trim a)); [constructor|].
  rewrite run_submit. unfold requests. cbn [fst snd].
  constructor; [|constructor]. exists (newBook (state b)).
  cbn [snd]. rewrite dispatch_data. split; [reflexivity|exact Hdom].
Qed.

Lemma ui_draft_fields_witness :
  dom (newBook (state listed)) = form_fields ∧
  Forall (λ r : Request, ∃ body, data r.2 = Some body ∧ dom body = form_fields)
    (requests (run ∅ 1 obliging (handleAddBook None ∅ (state listed)) (state listed))).
Proof.
  exact (ui_draft_fields None ∅ ∅ only_emma 1 obliging listed listed_ui_reachable).
Defined.

(** ** The controls and the parts of the rendered tree *)

Lemma controls_cards (loading : bool) (l : list Book) :
  Forall (λ c, prop "disabled" c = Some (Flag loading))
    (flat_map controls (map (bookCard loading) l)) ∧
  length (flat_map controls (map (bookCard loading) l)) = length l.
Proof.
  induction l as [|book l [IH1 IH2]]; [split; [constructor|reflexivity]|].
  change (flat_map controls (map (bookCard loading) (book :: l)))
    with (controls (bookCard loading book)
            ++ flat_map controls (map (bookCard loading) l)).
  assert (Hc : controls (bookCard loading book) =
               [[ attr "onClick" (Listen (HandleDeleteBook (_id book)));
                  className "delete-button";
                  attr "disabled" (Flag loading) ]]).
  { unfold bookCard, and_then.
    destruct (description book) as [[|c d]|]; reflexivity. }
  rewrite Hc. split.
  - constructor; [reflexivity|exact IH1].
  - simpl. now rewrite IH2.
Qed.

(** X18. Every input, textarea and button of the rendered tree is disabled
    exactly when [loading] is on, and there are four of them in the form
    and one per listed book. *)
Theorem render_controls (s : State) :
  Forall (λ c, prop "disabled" c = Some (Flag (loading s))) (controls (render s)) ∧
  Forall (λ c, is_disabled c = loading s) (controls (render s)) ∧
  length (controls (render s)) = (4 + length (books s))%nat.
Proof.
  assert (H : Forall (λ c, prop "disabled" c = Some (Flag (loading s)))
                (controls (render s)) ∧
              length (controls (render s)) = (4 + length (books s))%nat).
  { unfold render.
    destruct (books s) as [|book l] eqn:Hb.
    - unfold and_then.
      destruct (loading s), (JS.isEmpty (error s)); simpl;
        (split; [repeat constructor|reflexivity]).
    - replace (loading s && (length (book :: l) =? 0)%nat) with false
        by (destruct (loading s); reflexivity).
      change ((length (book :: l) =? 0)%nat) with false. cbv iota.
      pose proof (controls_cards (loading s) (book :: l)) as [Hc1 Hc2].
      unfold and_then.
      destruct (JS.isEmpty (error s)); simpl in *;
        rewrite ?app_nil_r in *;
        (split; [repeat (constructor; [reflexivity|]); exact Hc1
                | now rewrite Hc2]). }
  destruct H as [H1 H2]. split; [exact H1|]. split; [|exact H2].
  eapply Forall_impl; [exact H1|]. intros c Hc. unfold is_disabled. now rewrite Hc.
Qed.

Lemma by_class_cards (c : jsstring) (loading : bool) (l : list Book) :
  flat_map (by_class c) (map (bookCard loading) l)
    = flat_map (λ book, by_class c (bookCard loading book)) l.
Proof.
  induction l as [|book l IH]; [reflexivity|].
  simpl. now rewrite IH.
Qed.

Lemma by_class_book_card (loading : bool) (book : Book) :
  by_class (JS.lit "book-card") (bookCard loading book) = [bookCard loading book] ∧
  by_class (JS.lit "error-message") (bookCard loading book) = [].
Proof.
  unfold bookCard, and_then.
  destruct (description book) as [[|x d]|]; split; reflexivity.
Qed.

(** X19. The rendered tree has one card per listed book, in the order of
    [books], also when there are none; and it has the error banner, with
    [error] as its text, exactly when [error] is not the empty string. *)
Theorem render_parts (s : State) :
  by_class (JS.lit "book-card") (render s) = map (bookCard (loading s)) (books s) ∧
  by_class (JS.lit "error-message") (render s)
    = if JS.isEmpty (error s) then []
      else [Element "div" [className "error-message"] [Text (error s)]].
Proof.
  assert (Hcards : ∀ l,
            flat_map (by_class (JS.lit "book-card")) (map (bookCard (loading s)) l)
              = map (bookCard (loading s)) l ∧
            flat_map (by_class (JS.lit "error-message")) (map (bookCard (loading s)) l)
              = []).
  { intros l. rewrite !by_class_cards.
    induction l as [|book l [IH1 IH2]]; [split; reflexivity|].
    destruct (by_class_book_card (loading s) book) as [H1 H2].
    cbn [flat_map map]. rewrite H1, H2, IH1, IH2. split; reflexivity. }
  unfold render.
  destruct (books s) as [|book l] eqn:Hb.
  - unfold and_then.
    destruct (loading s), (JS.isEmpty (error s)); split; reflexivity.
  - replace (loading s && (length (book :: l) =? 0)%nat) with false
      by (destruct (loading s); reflexivity).
    change ((length (book :: l) =? 0)%nat) with false. cbv iota.
    destruct (Hcards (book :: l)) as [H1 H2].
    unfold and_then.
    destruct (JS.isEmpty (error s)); simpl in *;
      rewrite ?app_nil_r in *; rewrite ?H1, ?H2; split; reflexivity.
Qed.

(** ** Handlers that overlap *)

(** X20. The handlers themselves do not wait for one another.  When a
    delete and then a create are started before either call has settled,
    and the delete settles first, the create that settles after it puts
    back the books of the render it was called in: the deleted records are
    in [books] again, followed by the new one. *)
Theorem overlapping_create_restores_deleted
    (env : option jsstring) (defaults : gmap jsstring jsstring)
    (s : State) (t a id : jsstring) (record : Book) :
  newBook s !! JS.lit "title" = Some t →
  newBook s !! JS.lit "author" = Some a →
  JS.trim t ≠ [] → JS.trim a ≠ [] →
  ∃ b3 b4,
    rtc (step env defaults) {| state := s; inflight := [] |} b3 ∧
    step env defaults b3 b4 ∧
    books (state b3) = filter (λ book, _id book ≠ id) (books s) ∧
    books (state b4) = books s ++ [record] ∧
    inflight b4 = [].
Proof.
  intros Ht Ha Nt Na.
  set (b0 := {| state := s; inflight := [] |}).
  set (deleting := {| awaited := DELETE; resume := handleDeleteBook_settled s id |}).
  set (s1 := with_loading true s).
  set (creating := {| awaited := POST; resume := handleAddBook_settled s1 |}).
  set (b1 := {| state := s1; inflight := [deleting] |}).
  set (b2 := {| state := with_loading true s1; inflight := [creating; deleting] |}).
  assert (S1 : step env defaults b0 b1) by exact (step_action env defaults b0 (Remove id)).
  assert (S2 : step env defaults b1 b2).
  { pose proof (step_action env defaults b1 Submit) as H.
    change (step env defaults b1
              (park (sync (handleAddBook env defaults s1) s1) [deleting])) in H.
    rewrite (handleAddBook_filled env defaults s1 t a Ht Ha Nt Na) in H.
    exact H. }
  pose proof (step_settled env defaults b2 [creating] [] deleting (Fulfilled tt) eq_refl)
    as S3.
  set (b3 := park _ _) in S3.
  pose proof (step_settled env defaults b3 [] [] creating (Fulfilled record) eq_refl)
    as S4.
  exists b3, (park (sync (resume creating (Fulfilled record)) (state b3)) ([] ++ [])).
  split; [|split; [exact S4|repeat split]].
  eapply rtc_l; [exact S1|]. eapply rtc_l; [exact S2|]. apply rtc_once, S3.
Qed.

Lemma overlapping_create_restores_deleted_witness :
  ∃ b3 b4,
    rtc (step None ∅) {| state := emma_listed; inflight := [] |} b3 ∧
    step None ∅ b3 b4 ∧
    books (state b3) = [] ∧
    books (state b4) = [emma; dune] ∧
    inflight b4 = [].
Proof.
  assert (Nt : JS.trim (JS.lit " Dune ") ≠ []) by (vm_compute; discriminate).
  assert (Na : JS.trim (JS.lit "Herbert") ≠ []) by (vm_compute; discriminate).
  exact (overlapping_create_restores_deleted None ∅ emma_listed
           (JS.lit " Dune ") (JS.lit "Herbert") (_id emma) dune
           eq_refl eq_refl Nt Na).
Defined.

(** ** What the browser lets through *)

Lemma forms_cards (loading : bool) (l : list Book) :
  flat_map forms (map (bookCard loading) l) = [].
Proof.
  induction l as [|book l IH]; [reflexivity|].
  change (flat_map forms (map (bookCard loading) (book :: l)))
    with (forms (bookCard loading book)
            ++ flat_map forms (map (bookCard loading) l)).
  rewrite IH, app_nil_r. unfold bookCard, and_then.
  destruct (description book) as [[|c d]|]; reflexivity.
Qed.

Lemma permits_submit (s : State) (t au : jsstring) :
  newBook s !! JS.lit "title" = Some t →
  newBook s !! JS.lit "author" = Some au →
  permits (render s) Submit ↔ loading s = false ∧ t ≠ [] ∧ au ≠ [].
Proof.
  intros Ht Ha. unfold permits, render. rewrite Ht, Ha.
  match goal with
  | |- context [Element "div" [className "book-list"] [?h; ?region]] =>
      assert (Hregion : forms region = []);
      [|generalize dependent region; intros R HR]
  end.
  { destruct (loading s && (length (books s) =? 0)%nat); [reflexivity|].
    destruct (length (books s) =? 0)%nat; [reflexivity|].
    change (forms (Element "div" [className "books-container"]
                     (map (bookCard (loading s)) (books s))))
      with (flat_map forms (map (bookCard (loading s)) (books s))).
    apply forms_cards. }
  unfold and_then.
  destruct (loading s), (JS.isEmpty (error s)), t as [|c t], au as [|d au];
    simpl; rewrite HR, Exists_cons, Exists_nil, ?elem_of_nil,
             ?list_elem_of_singleton;
    try (split;
         [intros [[H1 H2]|[]]; first [contradiction | discriminate]
         |intros (H1 & H2 & H3); first [discriminate | congruence]]).
  all: split; [intros _; repeat split; discriminate|].
  all: intros _; left; split; [left | reflexivity].
Qed.

(** X13. What the browser lets the user do with the rendered tree, for a
    draft that has its [title] and [author]: nothing while [loading] is on;
    otherwise typing into the title, author or description field, deleting
    a record by the [_id] of one of the listed books, and submitting the
    form only when neither the title nor the author is the empty string,
    since both inputs are [required] (white space alone gets through, which
    is what the guard of [handleAddBook] is left to catch).  Whatever the
    browser lets through is among what the tree offers. *)
Theorem permits_iff (s : State) (a : Action) :
  draft_ok s →
  (permits (render s) a ↔
     loading s = false ∧
     match a with
     | Change e => name e ∈ form_fields
     | Submit =>
         (∃ t, newBook s !! JS.lit "title" = Some t ∧ t ≠ []) ∧
         (∃ au, newBook s !! JS.lit "author" = Some au ∧ au ≠ [])
     | Remove id => ∃ book, book ∈ books s ∧ _id book = id
     end) ∧
  (permits (render s) a → offers (render s) a).
Proof.
  intros [[t Ht] [au Ha]].
  destruct a as [e| |id]; try (split; [apply offers_iff | tauto]).
  pose proof (permits_submit s t au Ht Ha) as Hsubmit.
  split.
  - rewrite Hsubmit, Ht, Ha. split.
    + intros (Hl & Nt & Na). eauto 10.
    + intros (Hl & (t' & Et & Nt) & (au' & Ea & Na)).
      injection Et as <-. injection Ea as <-. auto.
  - intros Hp. apply Hsubmit in Hp as (Hl & _ & _).
    apply (offers_iff s Submit). split; [exact Hl | exact I].
Qed.

Lemma permits_iff_witness :
  ¬ permits (render initial) Submit ∧
  offers (render initial) Submit ∧
  permits (render emma_listed) Submit ∧
  permits (render emma_listed) (Remove (_id emma)).
Proof.
  assert (Hi : draft_ok initial) by (split; eexists; reflexivity).
  assert (He : draft_ok emma_listed) by (split; eexists; reflexivity).
  split; [|split; [|split]].
  - intros Hp.
    apply (proj1 (permits_iff initial Submit Hi)) in Hp
      as (_ & (t & Et & Nt) & _).
    injection Et as <-. now apply Nt.
  - apply (offers_iff initial Submit). split; [reflexivity | exact I].
  - apply (proj1 (permits_iff emma_listed Submit He)).
    split; [reflexivity|].
    split; eexists; (split; [reflexivity | discriminate]).
  - apply (proj1 (permits_iff emma_listed (Remove (_id emma)) He)).
    split; [reflexivity|]. exists emma. split; [left | reflexivity].
Defined.
